(** * binance_api: the exchange access functions of mambatrade

    A shallow embedding of [src/binance_api.py].  The module is glue code
    around three libraries: ccxt (the exchange client), requests (the public
    HTTP end points) and pandas (the tables that are returned).  The module's
    own control flow -- guards, [try]/[except] blocks, the list
    comprehension and the lambda of the ticker function -- is transcribed
    statement by statement.  Calls into the libraries are effects: they read
    and change the outside world and either return a value or raise.

    What the embedding takes for granted:
    - a call into a library comes back, with a value or with an exception
      (the HTTP requests carry a timeout of ten seconds);
    - what is raised is an instance of [Exception];
    - [print] does not fail;
    - arguments are None, numbers, strings, lists and dictionaries, and a
      client is None or a ccxt exchange object;
    - a string is its UTF-8 bytes: the operations used ([endswith] and the
      slices around a trailing USDT, the removal of a slash) act on ASCII
      text and give the same result on bytes as on characters. *)

From Stdlib Require Import String Ascii List Bool ZArith Lia.
From Stdlib Require Import Floats.SpecFloat.
Import ListNotations.
Open Scope string_scope.
Set Warnings "-register-all".

(** ** Python values *)

Module Py.

(** The values that reach the module: JSON documents decoded by
    [response.json()], the dictionaries ccxt returns, credentials, prices
    and amounts.  Dictionaries keep insertion order and have string keys.
    A Python [float] is an IEEE 754 number. *)
Inductive pyval : Type :=
| PNone
| PBool (b : bool)
| PInt (z : Z)
| PFloat (f : spec_float)
| PStr (s : string)
| PList (l : list pyval)
| PDict (d : list (string * pyval))
| PTimestamp (ms : Z).

Definition float_is_zero (f : spec_float) : bool :=
  match f with S754_zero _ => true | _ => false end.

Definition float_is_nan (f : spec_float) : bool :=
  match f with S754_nan => true | _ => false end.

Definition NaN : pyval := PFloat S754_nan.

(** [bool(v)], the test behind [if v], [not v] and [v and w]. *)
Definition truthy (v : pyval) : bool :=
  match v with
  | PNone => false
  | PBool b => b
  | PInt z => negb (z =? 0)%Z
  | PFloat f => negb (float_is_zero f)
  | PStr s => match s with EmptyString => false | _ => true end
  | PList l => match l with [] => false | _ => true end
  | PDict d => match d with [] => false | _ => true end
  | PTimestamp _ => true
  end.

(** [v != 0] with the integer literal [0]. *)
Definition ne_zero (v : pyval) : bool :=
  match v with
  | PBool b => b
  | PInt z => negb (z =? 0)%Z
  | PFloat f => negb (float_is_zero f)
  | _ => true
  end.

(** [v == 'lit'] for a string literal. *)
Definition eq_str (v : pyval) (lit : string) : bool :=
  match v with
  | PStr s => String.eqb s lit
  | _ => false
  end.

(** *** Exceptions

    [exn] stands for an instance of Python's [Exception]: every error class
    of ccxt ([ccxt.BaseError] and below), of requests ([RequestException],
    an [OSError]) and every built-in error raised by the operations used in
    the module derives from it.  The classes listed are the ones the module
    tells apart, their known subclasses, and the built-in errors raised by
    the operations below.  [exn_msg] is [str(e)]; the built-in errors
    carry the texts CPython 3.11 gives them. *)
Inductive ExnClass : Type :=
| Exception
| CcxtBaseError
| AuthenticationError
| PermissionDenied
| NetworkError
| RequestException
| HTTPError
| ConnectionError
| Timeout
| JSONDecodeError
| KeyError
| TypeError
| AttributeError
| ValueError
| IndexError.

Record exn : Type := MkExn { exn_class : ExnClass; exn_msg : string }.

(** [isinstance(e, ccxt.AuthenticationError)] *)
Definition is_AuthenticationError (e : exn) : bool :=
  match exn_class e with
  | AuthenticationError | PermissionDenied => true
  | _ => false
  end.

(** [isinstance(e, requests.exceptions.RequestException)] *)
Definition is_RequestException (e : exn) : bool :=
  match exn_class e with
  | RequestException | HTTPError | ConnectionError | Timeout
  | JSONDecodeError => true
  | _ => false
  end.

(** [isinstance(e, Exception)] *)
Definition is_Exception (e : exn) : bool :=
  match exn_class e with
  | Exception | CcxtBaseError | AuthenticationError | PermissionDenied
  | NetworkError | RequestException | HTTPError | ConnectionError | Timeout
  | JSONDecodeError | KeyError | TypeError | AttributeError | ValueError
  | IndexError => true
  end.

(** The result of evaluating an expression. *)
Inductive outcome (A : Type) : Type :=
| Ret (a : A)
| Raise (e : exn).
Arguments Ret {A} a.
Arguments Raise {A} e.

Definition obind {A B} (o : outcome A) (k : A -> outcome B) : outcome B :=
  match o with
  | Ret a => k a
  | Raise e => Raise e
  end.

(** *** Built-in operations *)

(** [type(v).__name__], as the texts of the built-in errors spell it. *)
Definition type_name (v : pyval) : string :=
  match v with
  | PNone => "NoneType"
  | PBool _ => "bool"
  | PInt _ => "int"
  | PFloat _ => "float"
  | PStr _ => "str"
  | PList _ => "list"
  | PDict _ => "dict"
  | PTimestamp _ => "Timestamp"
  end.

(** The error for a method a value does not have. *)
Definition no_attribute (v : pyval) (name : string) : exn :=
  MkExn AttributeError
        ("'" ++ type_name v ++ "' object has no attribute '" ++ name ++ "'").

Definition not_subscriptable (v : pyval) : exn :=
  MkExn TypeError ("'" ++ type_name v ++ "' object is not subscriptable").

Fixpoint assoc (k : string) (d : list (string * pyval)) : option pyval :=
  match d with
  | [] => None
  | (k', v) :: d' => if String.eqb k k' then Some v else assoc k d'
  end.

(** [v[key]] with a string key. *)
Definition getitem (v : pyval) (key : string) : outcome pyval :=
  match v with
  | PDict d =>
      match assoc key d with
      | Some x => Ret x
      | None => Raise (MkExn KeyError ("'" ++ key ++ "'"))
      end
  | PList _ =>
      Raise (MkExn TypeError "list indices must be integers or slices, not str")
  | PStr _ =>
      Raise (MkExn TypeError "string indices must be integers, not 'str'")
  | _ => Raise (not_subscriptable v)
  end.

(** [v[0]] *)
Definition getitem0 (v : pyval) : outcome pyval :=
  match v with
  | PList (x :: _) => Ret x
  | PList [] => Raise (MkExn IndexError "list index out of range")
  | PStr (String c _) => Ret (PStr (String c EmptyString))
  | PStr EmptyString => Raise (MkExn IndexError "string index out of range")
  | PDict _ => Raise (MkExn KeyError "0")
  | _ => Raise (not_subscriptable v)
  end.

(** [v.get(key)] and [v.get(key, default)]: a method of dictionaries only. *)
Definition dict_get (v : pyval) (key : string) (default : pyval)
  : outcome pyval :=
  match v with
  | PDict d =>
      match assoc key d with
      | Some x => Ret x
      | None => Ret default
      end
  | _ => Raise (no_attribute v "get")
  end.

(** [s.endswith(suffix)] on strings *)
Definition endswith (s suffix : string) : bool :=
  let n := String.length s in
  let m := String.length suffix in
  Nat.leb m n && String.eqb (substring (n - m) m s) suffix.

(** [v.endswith(suffix)] *)
Definition str_endswith (v : pyval) (suffix : string) : outcome bool :=
  match v with
  | PStr s => Ret (endswith s suffix)
  | _ => Raise (no_attribute v "endswith")
  end.

(** [s.replace(c, '')] for a one-character pattern [c] *)
Fixpoint remove_char (c : ascii) (s : string) : string :=
  match s with
  | EmptyString => EmptyString
  | String a s' =>
      if Ascii.eqb a c then remove_char c s' else String a (remove_char c s')
  end.

(** [v.replace('/', '')] *)
Definition str_replace_slash (v : pyval) : outcome pyval :=
  match v with
  | PStr s => Ret (PStr (remove_char "/"%char s))
  | _ => Raise (no_attribute v "replace")
  end.

(** [s[:-4]] and [s[-4:]] *)
Definition slice_to_m4 (s : string) : string :=
  substring 0 (String.length s - 4) s.

Definition slice_from_m4 (s : string) : string :=
  substring (String.length s - 4) 4 s.

(** [for t in v]: the elements the loop visits.  A string yields its
    characters and a dictionary its keys. *)
Fixpoint chars (s : string) : list pyval :=
  match s with
  | EmptyString => []
  | String c s' => PStr (String c EmptyString) :: chars s'
  end.

Definition iterate (v : pyval) : outcome (list pyval) :=
  match v with
  | PList l => Ret l
  | PDict d => Ret (map (fun kv => PStr (fst kv)) d)
  | PStr s => Ret (chars s)
  | _ => Raise (MkExn TypeError ("'" ++ type_name v ++ "' object is not iterable"))
  end.

End Py.
Import Py.

(** ** Effects

    A computation runs in a state made of the outside world (the exchange,
    the network) and of what was printed so far.  An exception leaves the
    state as it was at the point of the [raise]: effects are not undone. *)

Section Effects.

Context {World : Type}.

Record state : Type := MkState { st_world : World; st_stdout : list string }.

Definition M (A : Type) : Type := state -> outcome A * state.

Definition ret {A} (a : A) : M A := fun st => (Ret a, st).

Definition raise {A} (e : exn) : M A := fun st => (Raise e, st).

Definition bind {A B} (m : M A) (k : A -> M B) : M B :=
  fun st =>
    match m st with
    | (Ret a, st') => k a st'
    | (Raise e, st') => (Raise e, st')
    end.

(** A pure expression that may raise. *)
Definition lift {A} (o : outcome A) : M A := fun st => (o, st).

(** A call into a library: it sees and changes the world only. *)
Definition call {A} (f : World -> outcome A * World) : M A :=
  fun st =>
    let (o, w) := f (st_world st) in
    (o, MkState w (st_stdout st)).

(** [print(line)] *)
Definition print (line : string) : M unit :=
  fun st => (Ret tt, MkState (st_world st) (st_stdout st ++ [line])).

(** [try: body except C1 as e: h1 except C2 as e: h2 ...]: the first
    clause whose class matches handles the exception; with no matching
    clause it propagates. *)
Definition clause (A : Type) : Type := ((exn -> bool) * (exn -> M A))%type.

Fixpoint dispatch {A} (clauses : list (clause A)) (e : exn) : M A :=
  match clauses with
  | [] => raise e
  | (matches, handler) :: rest =>
      if matches e then handler e else dispatch rest e
  end.

Definition try_except {A} (body : M A) (clauses : list (clause A)) : M A :=
  fun st =>
    match body st with
    | (Ret a, st') => (Ret a, st')
    | (Raise e, st') => dispatch clauses e st'
    end.

End Effects.

Arguments state : clear implicits.
Arguments M : clear implicits.
Arguments clause : clear implicits.

Declare Scope py_scope.
Delimit Scope py_scope with py.
Notation "x <- m ;; k" := (bind m (fun x => k))
  (at level 61, m at next level, right associativity) : py_scope.
Notation "m ;;; k" := (bind m (fun _ => k))
  (at level 61, right associativity) : py_scope.
Notation "'except' C => h" := (C, h) (at level 60, only parsing) : py_scope.
Open Scope py_scope.

(** ** Tables

    A [pandas.DataFrame] is stored by column, as pandas does: an index and
    named columns of equal length.  The errors of pandas carry their class
    and an abridged text. *)

Module Pandas.

Record DataFrame : Type :=
  MkDF { df_index : list pyval; df_columns : list (string * list pyval) }.

(** [pd.DataFrame()] *)
Definition empty : DataFrame := MkDF [] [].

(** [pd.isna] on one cell *)
Definition isna (v : pyval) : bool :=
  match v with
  | PNone => true
  | PFloat f => float_is_nan f
  | _ => false
  end.

Fixpoint column (name : string) (cols : list (string * list pyval))
  : option (list pyval) :=
  match cols with
  | [] => None
  | (n, c) :: cols' => if String.eqb name n then Some c else column name cols'
  end.

Definition mem (k : string) (l : list string) : bool :=
  existsb (String.eqb k) l.

(** Keys of the records in order of first appearance. *)
Fixpoint add_keys (seen : list string) (d : list (string * pyval))
  : list string :=
  match d with
  | [] => seen
  | (k, _) :: d' => add_keys (if mem k seen then seen else seen ++ [k]) d'
  end.

Fixpoint union_keys (seen : list string) (recs : list (list (string * pyval)))
  : list string :=
  match recs with
  | [] => seen
  | d :: recs' => union_keys (add_keys seen d) recs'
  end.

Fixpoint records (rows : list pyval) : outcome (list (list (string * pyval))) :=
  match rows with
  | [] => Ret []
  | PDict d :: rows' => obind (records rows') (fun ds => Ret (d :: ds))
  | _ :: _ => Raise (MkExn TypeError "row is not a dict")
  end.

Definition cell (k : string) (d : list (string * pyval)) : pyval :=
  match assoc k d with
  | Some v => v
  | None => NaN
  end.

Definition range_index (n : nat) : list pyval :=
  map (fun i => PInt (Z.of_nat i)) (seq 0 n).

(** [pd.DataFrame(rows)] for a list of dictionaries: one column per key,
    a missing key gives NaN, the index counts the rows.  The module only
    builds a table this way from rows that are dictionaries; other rows are
    outside the fragment modelled and are answered with an exception. *)
Definition from_records (rows : list pyval) : outcome DataFrame :=
  obind (records rows) (fun recs =>
  Ret (MkDF (range_index (length recs))
            (map (fun k => (k, map (cell k) recs)) (union_keys [] recs)))).

(** [df[[n1, n2, ...]]] *)
Fixpoint select_columns (names : list string) (cols : list (string * list pyval))
  : outcome (list (string * list pyval)) :=
  match names with
  | [] => Ret []
  | n :: names' =>
      match column n cols with
      | None => Raise (MkExn KeyError n)
      | Some c => obind (select_columns names' cols) (fun r => Ret ((n, c) :: r))
      end
  end.

Definition select (names : list string) (df : DataFrame) : outcome DataFrame :=
  obind (select_columns names (df_columns df)) (fun cols =>
  Ret (MkDF (df_index df) cols)).

Fixpoint renamed (mapping : list (string * string)) (n : string) : string :=
  match mapping with
  | [] => n
  | (old, new) :: mapping' =>
      if String.eqb n old then new else renamed mapping' n
  end.

(** [df.rename(columns=mapping, inplace=True)] *)
Definition rename (mapping : list (string * string)) (df : DataFrame)
  : DataFrame :=
  MkDF (df_index df)
       (map (fun nc => (renamed mapping (fst nc), snd nc)) (df_columns df)).

(** [df[name]] *)
Definition get_column (name : string) (df : DataFrame) : outcome (list pyval) :=
  match column name (df_columns df) with
  | Some c => Ret c
  | None => Raise (MkExn KeyError name)
  end.

Fixpoint replace_column (name : string) (c : list pyval)
  (cols : list (string * list pyval)) : list (string * list pyval) :=
  match cols with
  | [] => [(name, c)]
  | (n, c') :: cols' =>
      if String.eqb name n then (n, c) :: cols'
      else (n, c') :: replace_column name c cols'
  end.

(** [df[name] = c] *)
Definition set_column (name : string) (c : list pyval) (df : DataFrame)
  : DataFrame :=
  MkDF (df_index df) (replace_column name c (df_columns df)).

Fixpoint remove_column (name : string) (cols : list (string * list pyval))
  : list (string * list pyval) :=
  match cols with
  | [] => []
  | (n, c) :: cols' =>
      if String.eqb name n then cols' else (n, c) :: remove_column name cols'
  end.

(** [df.set_index(name, inplace=True)] *)
Definition set_index (name : string) (df : DataFrame) : outcome DataFrame :=
  match column name (df_columns df) with
  | Some c => Ret (MkDF c (remove_column name (df_columns df)))
  | None => Raise (MkExn KeyError name)
  end.

(** [series.apply(f)] and cell-wise conversions *)
Fixpoint apply (f : pyval -> outcome pyval) (c : list pyval)
  : outcome (list pyval) :=
  match c with
  | [] => Ret []
  | v :: c' =>
      obind (f v) (fun w => obind (apply f c') (fun r => Ret (w :: r)))
  end.

Fixpoint apply_columns (f : pyval -> outcome pyval)
  (cols : list (string * list pyval)) : outcome (list (string * list pyval)) :=
  match cols with
  | [] => Ret []
  | (n, c) :: cols' =>
      obind (apply f c) (fun c2 =>
      obind (apply_columns f cols') (fun r => Ret ((n, c2) :: r)))
  end.

(** [df.astype(float)], given the conversion of one cell *)
Definition astype (conv : pyval -> outcome pyval) (df : DataFrame)
  : outcome DataFrame :=
  obind (apply_columns conv (df_columns df)) (fun cols =>
  Ret (MkDF (df_index df) cols)).

(** [df.dropna()]: a row goes when one of its cells is missing. *)
Fixpoint or_mask (m : list bool) (c : list pyval) : list bool :=
  match m, c with
  | b :: m', v :: c' => (b || isna v) :: or_mask m' c'
  | _, _ => m
  end.

Definition na_mask (df : DataFrame) : list bool :=
  fold_left (fun m nc => or_mask m (snd nc)) (df_columns df)
            (map (fun _ => false) (df_index df)).

Fixpoint drop_where {A} (m : list bool) (l : list A) : list A :=
  match m, l with
  | b :: m', x :: l' => if b then drop_where m' l' else x :: drop_where m' l'
  | _, _ => []
  end.

Definition dropna (df : DataFrame) : DataFrame :=
  let m := na_mask df in
  MkDF (drop_where m (df_index df))
       (map (fun nc => (fst nc, drop_where m (snd nc))) (df_columns df)).

End Pandas.
Import Pandas.

(** ** The libraries *)

Section Libraries.

Context {World : Type}.

Definition effect (A : Type) : Type := World -> outcome A * World.

(** The methods of a ccxt exchange object the module calls. *)
Record Client : Type := MkClient {
  fetch_balance : effect pyval;
  client_create_market_order : pyval -> pyval -> pyval -> effect pyval;
  create_order :
    pyval -> pyval -> pyval -> pyval -> pyval -> pyval -> effect pyval;
  fetch_positions : pyval -> effect pyval
}.

(** A [requests.Response]. *)
Record Response : Type := MkResponse {
  raise_for_status : outcome unit;
  json : outcome pyval
}.

(** What the module imports.  [ccxt_binance] is the constructor
    [ccxt.binance(config)]; [requests_get url params timeout] is
    [requests.get]; [str] is the conversion used by f-strings;
    [pd_DataFrame data columns] is [pd.DataFrame(data, columns=columns)] on
    any decoded JSON document; [pd_to_datetime] is
    [pd.to_datetime(column, unit='ms')]; [float_of] converts one cell for
    [astype(float)]; [to_numeric] is [pd.to_numeric(_, errors='coerce')] on
    one cell, NaN when the cell is no number. *)
Record Libs : Type := MkLibs {
  ccxt_binance : pyval -> effect Client;
  requests_get : string -> list (string * pyval) -> Z -> effect Response;
  str : pyval -> string;
  pd_DataFrame : pyval -> list string -> outcome DataFrame;
  pd_to_datetime : list pyval -> outcome (list pyval);
  float_of : pyval -> outcome pyval;
  to_numeric : pyval -> pyval
}.

End Libraries.

Arguments effect : clear implicits.
Arguments Client : clear implicits.
Arguments Libs : clear implicits.

(** ** The module [binance_api]

    A client argument is [None] or an exchange object made by
    [ccxt.binance]; such an object is always true in a condition, so
    [not client] holds for [None] only. *)

Section BinanceApi.

Context {World : Type} (L : Libs World).

(** The dictionary handed to [ccxt.binance]. *)
Definition client_config (api_key secret_key : pyval) : pyval :=
  PDict [("apiKey", api_key);
         ("secret", secret_key);
         ("options", PDict [("defaultType", PStr "future")])].

Definition get_binance_client (api_key secret_key : pyval)
  : M World (option (Client World)) :=
  if negb (truthy api_key) || negb (truthy secret_key) then ret None
  else
    try_except
      (exchange <- call (ccxt_binance L (client_config api_key secret_key));;
       ret (Some exchange))
      [ except is_Exception => fun e =>
          print ("CCXT istemcisi oluşturulurken hata: " ++ exn_msg e);;;
          ret None ].

Definition test_api_connection (api_key secret_key : pyval)
  : M World (bool * string) :=
  client <- get_binance_client api_key secret_key;;
  match client with
  | None => ret (false, "API anahtarları ile istemci oluşturulamadı.")
  | Some c =>
      try_except
        (call (fetch_balance c);;;
         ret (true, "API bağlantısı başarılı."))
        [ except is_AuthenticationError => fun e =>
            ret (false, "Kimlik doğrulama hatası: " ++ exn_msg e);
          except is_Exception => fun e =>
            ret (false, "Bir hata oluştu: " ++ exn_msg e) ]
  end.

Definition get_futures_balance (client : option (Client World))
  : M World pyval :=
  match client with
  | None => ret PNone
  | Some c =>
      try_except
        (balance <- call (fetch_balance c);;
         total <- lift (getitem balance "total");;
         usdt_balance <- lift (dict_get total "USDT" (PInt 0));;
         ret usdt_balance)
        [ except is_Exception => fun e =>
            print ("Bakiye alınırken hata: " ++ exn_msg e);;;
            ret PNone ]
  end.

Definition kline_columns : list string :=
  ["timestamp"; "open"; "high"; "low"; "close"; "volume"; "close_time";
   "quote_asset_volume"; "number_of_trades"; "taker_buy_base_asset_volume";
   "taker_buy_quote_asset_volume"; "ignore"].

(** The body of the [try] block of [get_historical_data]. *)
Definition historical_body (symbol timeframe limit : pyval)
  : M World (option DataFrame) :=
  formatted_symbol <- lift (str_replace_slash symbol);;
  let url := "https://fapi.binance.com/fapi/v1/klines" in
  let params := [("symbol", formatted_symbol);
                 ("interval", timeframe);
                 ("limit", limit)] in
  response <- call (requests_get L url params 10);;
  lift (raise_for_status response);;;
  data <- lift (json response);;
  if negb (truthy data) then ret (Some Pandas.empty)
  else
    df <- lift (pd_DataFrame L data kline_columns);;
    ts <- lift (get_column "timestamp" df);;
    ts <- lift (pd_to_datetime L ts);;
    let df := set_column "timestamp" ts df in
    df <- lift (set_index "timestamp" df);;
    df <- lift (select ["open"; "high"; "low"; "close"; "volume"] df);;
    df <- lift (astype (float_of L) df);;
    ret (Some df).

(** [timeframe] defaults to ['1h'] and [limit] to [100]. *)
Definition get_historical_data (client : option (Client World))
  (symbol timeframe limit : pyval) : M World (option DataFrame) :=
  try_except
    (historical_body symbol timeframe limit)
    [ except is_RequestException => fun e =>
        print ("Geçmiş veri alınırken API hatası: " ++ exn_msg e);;;
        ret None;
      except is_Exception => fun e =>
        print ("Geçmiş veri işlenirken hata: " ++ exn_msg e);;;
        ret None ].

(** ['sell' if side == 'buy' else 'buy'] *)
Definition opposite (side : pyval) : pyval :=
  if eq_str side "buy" then PStr "sell" else PStr "buy".

(** [{'stopPrice': price, 'reduceOnly': True}] *)
Definition stop_params (price : pyval) : pyval :=
  PDict [("stopPrice", price); ("reduceOnly", PBool true)].

(** The two protective orders of [create_market_order] have one shape:
    when a price is given, the order is placed inside a [try] of its own
    and a failure is printed. *)
Definition protective_order (c : Client World)
  (symbol opposite_side amount price : pyval) (type created failed : string)
  : M World unit :=
  if truthy price then
    try_except
      (let params := stop_params price in
       order <- call (create_order c symbol (PStr type) opposite_side amount
                        PNone params);;
       print (created ++ str L order))
      [ except is_Exception => fun e => print (failed ++ exn_msg e) ]
  else ret tt.

(** [take_profit_price] and [stop_loss_price] default to [None]. *)
Definition create_market_order (client : option (Client World))
  (symbol side amount take_profit_price stop_loss_price : pyval)
  : M World (pyval * string) :=
  match client with
  | None => ret (PNone, "Geçersiz istemci.")
  | Some c =>
      try_except
        (order <- call (client_create_market_order c symbol side amount);;
         print ("Market order created: " ++ str L order);;;
         let opposite_side := opposite side in
         protective_order c symbol opposite_side amount take_profit_price
           "TAKE_PROFIT_MARKET" "Take profit order created: "
           "Take profit emri oluşturulurken hata: ";;;
         protective_order c symbol opposite_side amount stop_loss_price
           "STOP_MARKET" "Stop loss order created: "
           "Stop loss emri oluşturulurken hata: ";;;
         ret (order, "Emir başarıyla oluşturuldu."))
        [ except is_Exception => fun e =>
            ret (PNone, "Emir oluşturulurken hata: " ++ exn_msg e) ]
  end.

(** [[t for t in data if t['symbol'].endswith('USDT')]] *)
Fixpoint usdt_tickers (data : list pyval) : outcome (list pyval) :=
  match data with
  | [] => Ret []
  | t :: data' =>
      obind (getitem t "symbol") (fun symbol =>
      obind (str_endswith symbol "USDT") (fun keep =>
      obind (usdt_tickers data') (fun rest =>
      Ret (if keep then t :: rest else rest))))
  end.

(** [lambda s: f"{s[:-4]}/{s[-4:]}" if s.endswith('USDT') else s] *)
Definition format_symbol (s : pyval) : outcome pyval :=
  match s with
  | PStr x =>
      Ret (PStr (if endswith x "USDT"
                 then slice_to_m4 x ++ "/" ++ slice_from_m4 x
                 else x))
  | _ => Raise (no_attribute s "endswith")
  end.

Definition ticker_columns : list string :=
  ["symbol"; "priceChangePercent"; "lastPrice"; "quoteVolume"].

Definition ticker_names : list (string * string) :=
  [("symbol", "Sembol");
   ("priceChangePercent", "Değişim (%)");
   ("lastPrice", "Son Fiyat");
   ("quoteVolume", "Hacim (USDT)")].

(** [df[name] = pd.to_numeric(df[name], errors='coerce')] *)
Definition coerce_column (name : string) (df : DataFrame) : outcome DataFrame :=
  obind (get_column name df) (fun c =>
  Ret (set_column name (map (to_numeric L) c) df)).

(** The body of the [try] block of [get_24h_ticker]. *)
Definition ticker_body : M World (option DataFrame) :=
  let url := "https://fapi.binance.com/fapi/v1/ticker/24hr" in
  response <- call (requests_get L url [] 10);;
  lift (raise_for_status response);;;
  data <- lift (json response);;
  elements <- lift (iterate data);;
  usdt <- lift (usdt_tickers elements);;
  match usdt with
  | [] => ret (Some Pandas.empty)
  | _ :: _ =>
      df <- lift (from_records usdt);;
      df <- lift (select ticker_columns df);;
      let df := rename ticker_names df in
      df <- lift (coerce_column "Değişim (%)" df);;
      df <- lift (coerce_column "Son Fiyat" df);;
      df <- lift (coerce_column "Hacim (USDT)" df);;
      sembol <- lift (get_column "Sembol" df);;
      sembol <- lift (apply format_symbol sembol);;
      let df := set_column "Sembol" sembol df in
      ret (Some (dropna df))
  end.

Definition get_24h_ticker : M World (option DataFrame) :=
  try_except ticker_body
    [ except is_RequestException => fun e =>
        print ("Binance API'sine bağlanırken hata (ticker): " ++ exn_msg e);;;
        ret None;
      except is_Exception => fun e =>
        print ("24 saatlik ticker verisi işlenirken hata: " ++ exn_msg e);;;
        ret None ].

Definition get_position (client : option (Client World)) (symbol : pyval)
  : M World pyval :=
  match client with
  | None => ret PNone
  | Some c =>
      try_except
        (positions <- call (fetch_positions c (PList [symbol]));;
         if truthy positions then
           position <- lift (getitem0 positions);;
           contracts <- lift (dict_get position "contracts" PNone);;
           if truthy contracts then
             contracts <- lift (getitem position "contracts");;
             if ne_zero contracts then ret position else ret PNone
           else ret PNone
         else ret PNone)
        [ except is_Exception => fun e =>
            print ("Pozisyon bilgisi alınırken hata: " ++ exn_msg e);;;
            ret PNone ]
  end.

End BinanceApi.

(** ** Vocabulary of the properties *)

(** A credential that is missing: [None] or the empty string. *)
Definition missing (v : pyval) : Prop := v = PNone \/ v = PStr "".

(** The contract count of a position descriptor, when it has one. *)
Definition contracts_of (position : pyval) : option pyval :=
  match position with
  | PDict d => assoc "contracts" d
  | _ => None
  end.

(** The symbol of an upstream ticker entry, when it is a string. *)
Definition ticker_symbol (t : pyval) : option string :=
  match t with
  | PDict d =>
      match assoc "symbol" d with
      | Some (PStr s) => Some s
      | _ => None
      end
  | _ => None
  end.

Definition quoted_in_usdt (t : pyval) : bool :=
  match ticker_symbol t with
  | Some s => endswith s "USDT"
  | None => false
  end.

(** The separated form of the symbol of an entry: BTCUSDT gives BTC/USDT. *)
Definition separated (t : pyval) : pyval :=
  match ticker_symbol t with
  | Some s => PStr (slice_to_m4 s ++ "/USDT")
  | None => PNone
  end.

Definition fields_of (t : pyval) : list (string * pyval) :=
  match t with
  | PDict d => d
  | _ => []
  end.

(** A column of a table, empty when the table has no such column. *)
Definition values (name : string) (df : DataFrame) : list pyval :=
  match column name (df_columns df) with
  | Some c => c
  | None => []
  end.

Section Vocabulary.

Context {World : Type} (L : Libs World).

(** A field of an entry after numeric coercion; NaN when the entry lacks
    the field. *)
Definition numeric (name : string) (t : pyval) : pyval :=
  to_numeric L (cell name (fields_of t)).

(** An entry none of whose three numeric fields is missing after coercion. *)
Definition complete (t : pyval) : bool :=
  negb (isna (numeric "priceChangePercent" t))
  && negb (isna (numeric "lastPrice" t))
  && negb (isna (numeric "quoteVolume" t)).

(** The request [get_historical_data] sends for a symbol. *)
Definition klines_request (s : string) (timeframe limit : pyval)
  : effect World Response :=
  requests_get L "https://fapi.binance.com/fapi/v1/klines"
    [("symbol", PStr (remove_char "/" s));
     ("interval", timeframe);
     ("limit", limit)] 10.

(** The request [get_24h_ticker] sends. *)
Definition ticker_request : effect World Response :=
  requests_get L "https://fapi.binance.com/fapi/v1/ticker/24hr" [] 10.

(** The state in which [create_market_order] attempts the take-profit
    order: the primary order was placed and printed. *)
Definition after_primary (order : pyval) (st : state World) (w : World)
  : state World :=
  MkState w (st_stdout st ++ ["Market order created: " ++ str L order]).

Definition take_profit (c : Client World) (symbol side amount price : pyval)
  : M World unit :=
  protective_order L c symbol (opposite side) amount price
    "TAKE_PROFIT_MARKET" "Take profit order created: "
    "Take profit emri oluşturulurken hata: ".

Definition stop_loss (c : Client World) (symbol side amount price : pyval)
  : M World unit :=
  protective_order L c symbol (opposite side) amount price
    "STOP_MARKET" "Stop loss order created: "
    "Stop loss emri oluşturulurken hata: ".

(** The state in which the stop-loss order is attempted: after the
    take-profit order was. *)
Definition after_take_profit (c : Client World)
  (symbol side amount take_profit_price order : pyval)
  (st : state World) (w : World) : state World :=
  snd (take_profit c symbol side amount take_profit_price
         (after_primary order st w)).

(** The state [create_market_order] ends in. *)
Definition after_stop_loss (c : Client World)
  (symbol side amount take_profit_price stop_loss_price order : pyval)
  (st : state World) (w : World) : state World :=
  snd (stop_loss c symbol side amount stop_loss_price
         (after_take_profit c symbol side amount take_profit_price order st w)).

End Vocabulary.

(** ** Test doubles

    A world that counts the calls made into the libraries, an exchange
    object with scripted answers and a library instance with scripted
    answers of the constructor, of the HTTP request and of the table
    constructor. *)

Definition answer {A} (o : outcome A) : effect nat A := fun n => (o, S n).

Definition stub_client (balance order protective positions : outcome pyval)
  : Client nat :=
  MkClient (answer balance)
           (fun _ _ _ => answer order)
           (fun _ _ _ _ _ _ => answer protective)
           (fun _ => answer positions).

Fixpoint digits_value (acc : Z) (s : string) : option Z :=
  match s with
  | EmptyString => Some acc
  | String c s' =>
      let n := nat_of_ascii c in
      if Nat.leb 48 n && Nat.leb n 57
      then digits_value (10 * acc + Z.of_nat (n - 48)) s'
      else None
  end.

(** Coercion of one cell for cells that are numbers, null or strings of
    decimal digits; every other cell is answered with NaN. *)
Definition stub_to_numeric (v : pyval) : pyval :=
  match v with
  | PInt _ | PFloat _ => v
  | PStr (String c s) =>
      match digits_value 0 (String c s) with
      | Some z => PInt z
      | None => NaN
      end
  | _ => NaN
  end.

Definition stub_float_of (v : pyval) : outcome pyval :=
  match stub_to_numeric v with
  | PFloat S754_nan => Raise (MkExn ValueError "could not convert to float")
  | w => Ret w
  end.

Definition stub_libs (construction : outcome (Client nat))
  (http : outcome Response) (table : outcome DataFrame) : Libs nat :=
  MkLibs (fun _ => answer construction)
         (fun _ _ _ => answer http)
         (fun _ => "{...}")
         (fun _ _ => table)
         (fun c => Ret c)
         stub_float_of
         stub_to_numeric.

Definition start : state nat := MkState 0 [].

Definition rejected : exn := MkExn CcxtBaseError "order rejected".

Definition unreachable : exn := MkExn ConnectionError "connection refused".

Definition no_table : outcome DataFrame :=
  Raise (MkExn ValueError "12 columns passed, passed data had 1 columns").

Definition filled : pyval :=
  PDict [("id", PStr "7"); ("status", PStr "closed")].

(** A balance without USDT. *)
Definition btc_only : pyval :=
  PDict [("total", PDict [("BTC", PFloat (S754_finite false 1 (-1)))])].

(** A descriptor with no contracts and one with three. *)
Definition flat : pyval :=
  PDict [("symbol", PStr "BTC/USDT:USDT");
         ("contracts", PFloat (S754_zero false))].

Definition long3 : pyval :=
  PDict [("symbol", PStr "BTC/USDT:USDT");
         ("contracts", PFloat (S754_finite false 3 0))].

(** An exchange object whose protective orders are rejected. *)
Definition flaky : Client nat :=
  stub_client (Ret btc_only) (Ret filled) (Raise rejected)
              (Ret (PList [flat; long3])).

(** An exchange object that cannot reach the exchange. *)
Definition offline : Client nat :=
  stub_client (Raise unreachable) (Raise unreachable) (Raise unreachable)
              (Raise unreachable).

(** An exchange object that holds three contracts. *)
Definition holding : Client nat :=
  stub_client (Ret btc_only) (Ret filled) (Ret filled)
              (Ret (PList [long3; flat])).

(** An exchange object whose key the exchange refuses. *)
Definition refused : Client nat :=
  stub_client (Raise (MkExn AuthenticationError "invalid api key"))
              (Raise (MkExn AuthenticationError "invalid api key"))
              (Raise (MkExn AuthenticationError "invalid api key"))
              (Raise (MkExn AuthenticationError "invalid api key")).

Definition ok_response (body : pyval) : outcome Response :=
  Ret (MkResponse (Ret tt) (Ret body)).

(** Three upstream ticker entries: one complete and quoted in USDT, one
    quoted in USDT whose last price is null, one quoted in BTC. *)
Definition btcusdt : pyval :=
  PDict [("symbol", PStr "BTCUSDT"); ("priceChangePercent", PStr "2");
         ("lastPrice", PStr "64000"); ("quoteVolume", PStr "900")].

Definition ethusdt : pyval :=
  PDict [("symbol", PStr "ETHUSDT"); ("priceChangePercent", PStr "1");
         ("lastPrice", PNone); ("quoteVolume", PStr "500")].

Definition ethbtc : pyval :=
  PDict [("symbol", PStr "ETHBTC"); ("priceChangePercent", PStr "3");
         ("lastPrice", PStr "5"); ("quoteVolume", PStr "40")].

Definition ticker_fixture : list pyval := [btcusdt; ethusdt; ethbtc].

Definition ticker_libs : Libs nat :=
  stub_libs (Ret flaky) (ok_response (PList ticker_fixture)) no_table.

(** The table [get_24h_ticker] returns for the fixture. *)
Definition ticker_table : DataFrame :=
  MkDF [PInt 0]
       [("Sembol", [PStr "BTC/USDT"]);
        ("Değişim (%)", [PInt 2]);
        ("Son Fiyat", [PInt 64000]);
        ("Hacim (USDT)", [PInt 900])].

(** One candle as [pd.DataFrame(data, columns=...)] gives it, with its
    closing price left open. *)
Definition candles (close : pyval) : DataFrame :=
  MkDF [PInt 0]
       [("timestamp", [PInt 1700000000000]);
        ("open", [PStr "100"]); ("high", [PStr "120"]);
        ("low", [PStr "90"]); ("close", [close]);
        ("volume", [PStr "7"]); ("close_time", [PInt 1700003599999]);
        ("quote_asset_volume", [PStr "700"]); ("number_of_trades", [PInt 12]);
        ("taker_buy_base_asset_volume", [PStr "3"]);
        ("taker_buy_quote_asset_volume", [PStr "300"]); ("ignore", [PStr "0"])].

(** A candle whose closing price is no number. *)
Definition broken_candles : DataFrame := candles (PStr "n/a").

Definition one_kline : pyval := PList [PList [PInt 1700000000000]].

(** ** The calls a run makes

    To say which calls into the libraries a function makes, an exchange
    object and a library instance are wrapped so that each call is written
    to a log kept beside the world.  The wrapped call behaves as the call
    it wraps. *)

Inductive lib_call : Type :=
| Call_binance (config : pyval)
| Call_get (url : string) (params : list (string * pyval)) (timeout : Z)
| Call_fetch_balance
| Call_create_market_order (symbol side amount : pyval)
| Call_create_order (symbol type side amount price params : pyval)
| Call_fetch_positions (symbols : pyval).

Section Tracing.

Context {World : Type}.

Definition logged {A} (c : lib_call) (f : effect World A)
  : effect (World * list lib_call) A :=
  fun wl => let (o, w) := f (fst wl) in (o, (w, (snd wl ++ [c])%list)).

Definition traced_client (c : Client World) : Client (World * list lib_call) :=
  MkClient
    (logged Call_fetch_balance (fetch_balance c))
    (fun symbol side amount =>
       logged (Call_create_market_order symbol side amount)
              (client_create_market_order c symbol side amount))
    (fun symbol type side amount price params =>
       logged (Call_create_order symbol type side amount price params)
              (create_order c symbol type side amount price params))
    (fun symbols =>
       logged (Call_fetch_positions symbols) (fetch_positions c symbols)).

Definition traced_libs (L : Libs World) : Libs (World * list lib_call) :=
  MkLibs
    (fun config wl =>
       let (o, w) := ccxt_binance L config (fst wl) in
       (match o with
        | Ret c => Ret (traced_client c)
        | Raise e => Raise e
        end,
        (w, (snd wl ++ [Call_binance config])%list)))
    (fun url params timeout =>
       logged (Call_get url params timeout) (requests_get L url params timeout))
    (str L) (pd_DataFrame L) (pd_to_datetime L) (float_of L) (to_numeric L).

(** The calls logged in a state. *)
Definition calls (st : state (World * list lib_call)) : list lib_call :=
  snd (st_world st).

(** A state with a given world, log and output. *)
Definition logging (w : World) (log : list lib_call) (out : list string)
  : state (World * list lib_call) :=
  MkState (w, log) out.

End Tracing.

(** ** More vocabulary *)

(** The protective orders [create_market_order] asks for, in order. *)
Definition protective_calls (symbol side amount tp sl : pyval) : list lib_call :=
  ((if truthy tp
    then [Call_create_order symbol (PStr "TAKE_PROFIT_MARKET") (opposite side)
            amount PNone (stop_params tp)]
    else [])
   ++ (if truthy sl
       then [Call_create_order symbol (PStr "STOP_MARKET") (opposite side)
               amount PNone (stop_params sl)]
       else []))%list.

(** The request for candles, as a logged call. *)
Definition klines_call (s : string) (timeframe limit : pyval) : lib_call :=
  Call_get "https://fapi.binance.com/fapi/v1/klines"
    [("symbol", PStr (remove_char "/" s));
     ("interval", timeframe);
     ("limit", limit)] 10.

Definition ticker_call : lib_call :=
  Call_get "https://fapi.binance.com/fapi/v1/ticker/24hr" [] 10.

(** A string without a slash. *)
Fixpoint no_slash (s : string) : bool :=
  match s with
  | EmptyString => true
  | String c s' => negb (Ascii.eqb c "/"%char) && no_slash s'
  end.

Definition has_key (k : string) (d : list (string * pyval)) : bool :=
  match assoc k d with
  | Some _ => true
  | None => false
  end.

(** The names of the columns of a table. *)
Definition column_names (df : DataFrame) : list string :=
  map fst (df_columns df).

Definition price_columns : list string :=
  ["open"; "high"; "low"; "close"; "volume"].

Definition ticker_headers : list string :=
  ["Sembol"; "Değişim (%)"; "Son Fiyat"; "Hacim (USDT)"].

(** Every column is as long as the index. *)
Definition rectangular (df : DataFrame) : Prop :=
  Forall (fun nc => length (snd nc) = length (df_index df)) (df_columns df).

(** No cell is missing. *)
Definition no_missing_value (df : DataFrame) : Prop :=
  Forall (fun nc => Forall (fun v => isna v = false) (snd nc)) (df_columns df).

Section MoreVocabulary.

Context {World : Type} (L : Libs World).

(** The table [get_24h_ticker] builds from the entries quoted in USDT: the
    complete ones, under the positions they had among all of them. *)
Definition ticker_table_of (usdt : list pyval) : DataFrame :=
  let kept := filter (complete L) usdt in
  MkDF (drop_where (map (fun t => negb (complete L t)) usdt)
          (range_index (length usdt)))
       [("Sembol", map separated kept);
        ("Değişim (%)", map (numeric L "priceChangePercent") kept);
        ("Son Fiyat", map (numeric L "lastPrice") kept);
        ("Hacim (USDT)", map (numeric L "quoteVolume") kept)].

(** Each of the three numeric fields is a key of some entry. *)
Definition fields_present (usdt : list pyval) : bool :=
  forallb (fun n => existsb (fun t => has_key n (fields_of t)) usdt)
          ["priceChangePercent"; "lastPrice"; "quoteVolume"].

(** What [get_24h_ticker] returns for a list of entries that all carry a
    string symbol. *)
Definition ticker_result (ts : list pyval) : option DataFrame :=
  match filter quoted_in_usdt ts with
  | [] => Some Pandas.empty
  | usdt => if fields_present usdt then Some (ticker_table_of usdt) else None
  end.

(** The line printed when the body of [get_historical_data] raises. *)
Definition history_diagnostic (e : exn) : string :=
  (if is_RequestException e
   then "Geçmiş veri alınırken API hatası: "
   else "Geçmiş veri işlenirken hata: ") ++ exn_msg e.

(** The line printed when the body of [get_24h_ticker] raises. *)
Definition ticker_diagnostic (e : exn) : string :=
  (if is_RequestException e
   then "Binance API'sine bağlanırken hata (ticker): "
   else "24 saatlik ticker verisi işlenirken hata: ") ++ exn_msg e.

End MoreVocabulary.

(** ** More test doubles *)

(** An exchange whose take-profit orders are rejected and whose other
    orders are accepted: the answer depends on the type of the order. *)
Definition picky : Client nat :=
  MkClient (answer (Ret btc_only))
           (fun _ _ _ => answer (Ret filled))
           (fun _ type _ _ _ _ =>
              if eq_str type "TAKE_PROFIT_MARKET"
              then answer (Raise rejected) else answer (Ret filled))
           (fun _ => answer (Ret (PList [long3; flat]))).

(** A balance with 250 USDT, one without the 'total' map. *)
Definition usdt_250 : pyval :=
  PDict [("free", PDict [("USDT", PInt 100)]);
         ("total", PDict [("BTC", PInt 1); ("USDT", PInt 250)])].

Definition no_total : pyval := PDict [("info", PDict [])].

(** A short position: the contract count is negative. *)
Definition short2 : pyval :=
  PDict [("symbol", PStr "BTC/USDT:USDT"); ("contracts", PInt (-2))].

(** Two entries quoted in USDT none of which carries a last price. *)
Definition unpriced : list pyval :=
  [PDict [("symbol", PStr "BTCUSDT"); ("priceChangePercent", PStr "2");
          ("quoteVolume", PStr "900")];
   PDict [("symbol", PStr "ETHUSDT"); ("priceChangePercent", PStr "1");
          ("quoteVolume", PStr "500")]].

(** The table [get_historical_data] returns for one candle. *)
Definition one_candle : DataFrame :=
  MkDF [PInt 1700000000000]
    [("open", [PInt 100]); ("high", [PInt 120]); ("low", [PInt 90]);
     ("close", [PInt 110]); ("volume", [PInt 7])].

Definition candle_libs : Libs nat :=
  stub_libs (Ret flaky) (ok_response one_kline) (Ret (candles (PStr "110"))).

(** * Properties *)

Lemma is_Exception_all (e : exn) : is_Exception e = true.
Proof. destruct e as [c m]; destruct c; reflexivity. Qed.

Lemma missing_not_truthy (v : pyval) : missing v -> truthy v = false.
Proof. intros [-> | ->]; reflexivity. Qed.

Lemma ne_zero_false_not_truthy (v : pyval) : ne_zero v = false -> truthy v = false.
Proof. destruct v; simpl; congruence. Qed.

(** ** The operations on small inputs *)

Example endswith_BTCUSDT : endswith "BTCUSDT" "USDT" = true.
Proof. reflexivity. Qed.

Example endswith_short : endswith "SDT" "USDT" = false.
Proof. reflexivity. Qed.

Example replace_slash : str_replace_slash (PStr "BTC/USDT") = Ret (PStr "BTCUSDT").
Proof. reflexivity. Qed.

Example format_symbol_BTCUSDT :
  format_symbol (PStr "BTCUSDT") = Ret (PStr "BTC/USDT").
Proof. reflexivity. Qed.

Example format_symbol_USDT : format_symbol (PStr "USDT") = Ret (PStr "/USDT").
Proof. reflexivity. Qed.

Example format_symbol_ETHBTC :
  format_symbol (PStr "ETHBTC") = Ret (PStr "ETHBTC").
Proof. reflexivity. Qed.

Example usdt_tickers_fixture :
  usdt_tickers ticker_fixture = Ret [btcusdt; ethusdt].
Proof. reflexivity. Qed.

(** An entry without a symbol stops the comprehension with a KeyError. *)
Example usdt_tickers_no_symbol :
  usdt_tickers [btcusdt; PDict [("lastPrice", PStr "1")]]
  = Raise (MkExn KeyError "'symbol'").
Proof. reflexivity. Qed.

(** A list of candles that converts gives the five price columns indexed
    by time. *)
Example get_historical_data_candles :
  fst (get_historical_data
         (stub_libs (Ret flaky) (ok_response one_kline) (Ret (candles (PStr "110"))))
         None (PStr "BTC/USDT") (PStr "1h") (PInt 100) start)
  = Ret (Some (MkDF [PInt 1700000000000]
                 [("open", [PInt 100]); ("high", [PInt 120]);
                  ("low", [PInt 90]); ("close", [PInt 110]);
                  ("volume", [PInt 7])])).
Proof. reflexivity. Qed.

(** No ticker entry quoted in USDT gives the empty table, and an entry
    without a symbol gives None. *)
Example get_24h_ticker_none_quoted :
  fst (get_24h_ticker (stub_libs (Ret flaky) (ok_response (PList [ethbtc])) no_table)
         start)
  = Ret (Some Pandas.empty).
Proof. reflexivity. Qed.

Example get_24h_ticker_no_symbol :
  get_24h_ticker
    (stub_libs (Ret flaky)
       (ok_response (PList [btcusdt; PDict [("lastPrice", PStr "1")]])) no_table)
    start
  = (Ret None,
     MkState 1 ["24 saatlik ticker verisi işlenirken hata: 'symbol'"]).
Proof. reflexivity. Qed.

(** Unfolds the sequencing of effects, leaving the library calls. *)
Ltac run :=
  cbv beta iota zeta
      delta [try_except bind call lift ret raise print dispatch
             negb orb andb].

Ltac crunch :=
  repeat match goal with
    | H : context [match ?x with _ => _ end] |- _ =>
        destruct x eqn:?; try discriminate
    | |- context [match ?x with _ => _ end] =>
        destruct x eqn:?; try discriminate
    end.

(** ** Strings *)

Lemma substring_all (s : string) : substring 0 (String.length s) s = s.
Proof. induction s as [ | c s IH]; simpl; congruence. Qed.

Lemma substring_split (n : nat) : forall s : string,
  n <= String.length s ->
  s = substring 0 n s ++ substring n (String.length s - n) s.
Proof.
  induction n as [ | n IH]; intros s Hn.
  - rewrite Nat.sub_0_r, substring_all. destruct s; reflexivity.
  - destruct s as [ | c s]; simpl in Hn; [ lia | ].
    simpl. f_equal. apply IH. lia.
Qed.

Lemma substring_suffix (a s : string) :
  substring (String.length a) (String.length s) (a ++ s) = s.
Proof.
  induction a as [ | c a IH]; simpl.
  - apply substring_all.
  - destruct (String.length s); exact IH.
Qed.

Lemma append_length (a b : string) :
  String.length (a ++ b) = String.length a + String.length b.
Proof. induction a as [ | c a IH]; simpl; congruence. Qed.

Lemma append_assoc (a b c : string) : (a ++ b) ++ c = a ++ (b ++ c).
Proof. induction a as [ | x a IH]; simpl; congruence. Qed.

Lemma endswith_append (a suffix : string) : endswith (a ++ suffix) suffix = true.
Proof.
  unfold endswith. rewrite append_length.
  replace (String.length a + String.length suffix - String.length suffix)
    with (String.length a) by lia.
  rewrite substring_suffix, String.eqb_refl, andb_true_r.
  apply Nat.leb_le. lia.
Qed.

(** A symbol that ends in USDT is a base asset followed by USDT, and the
    lambda of the ticker function puts the separator between the two. *)
Lemma endswith_USDT_split (x : string) :
  endswith x "USDT" = true ->
  x = slice_to_m4 x ++ "USDT"
  /\ slice_to_m4 x ++ "/" ++ slice_from_m4 x = slice_to_m4 x ++ "/USDT".
Proof.
  unfold endswith, slice_to_m4, slice_from_m4. cbn [String.length].
  intros H. apply andb_true_iff in H as [Hlen Heq].
  apply Nat.leb_le in Hlen. apply String.eqb_eq in Heq.
  rewrite Heq. split; [ | reflexivity ].
  assert (Hs := substring_split (String.length x - 4) x ltac:(lia)).
  replace (String.length x - (String.length x - 4)) with 4 in Hs by lia.
  rewrite Heq in Hs. exact Hs.
Qed.

(** ** Lists and tables *)

Lemma apply_raises (f : pyval -> outcome pyval) (c : list pyval) v e :
  In v c -> f v = Raise e -> exists e', apply f c = Raise e'.
Proof.
  induction c as [ | x c IH]; intros Hin Hf; [ contradiction | ].
  simpl. destruct (f x) as [y | ex] eqn:Hx; simpl.
  - destruct Hin as [-> | Hin]; [ congruence | ].
    destruct (IH Hin Hf) as (e' & ->). simpl. eauto.
  - eauto.
Qed.

Lemma apply_columns_raises (f : pyval -> outcome pyval)
  (cols : list (string * list pyval)) n c v e :
  In (n, c) cols -> In v c -> f v = Raise e ->
  exists e', apply_columns f cols = Raise e'.
Proof.
  induction cols as [ | [m d] cols IH]; intros Hin Hv Hf; [ contradiction | ].
  simpl. destruct Hin as [Heq | Hin].
  - injection Heq as -> ->.
    destruct (apply_raises f c v e Hv Hf) as (e' & ->). simpl. eauto.
  - destruct (apply f d) as [d2 | ex]; simpl; [ | eauto ].
    destruct (IH Hin Hv Hf) as (e' & ->). simpl. eauto.
Qed.

Lemma usdt_tickers_filter (ts usdt : list pyval) :
  usdt_tickers ts = Ret usdt ->
  usdt = filter quoted_in_usdt ts
  /\ (forall t, In t usdt ->
        exists d s, t = PDict d /\ assoc "symbol" d = Some (PStr s)
                    /\ endswith s "USDT" = true).
Proof.
  revert usdt. induction ts as [ | t ts IH]; intros usdt H.
  - injection H as <-. split; [ reflexivity | intros t [] ].
  - simpl in H.
    destruct t as [ | | | | | | d | ]; try discriminate.
    simpl in H. destruct (assoc "symbol" d) as [sym | ] eqn:Hs;
      [ | discriminate ].
    simpl in H. destruct sym as [ | | | | s | | | ]; try discriminate.
    simpl in H. destruct (usdt_tickers ts) as [rest | e]; [ | discriminate ].
    simpl in H. injection H as <-.
    destruct (IH rest eq_refl) as [Hf Hall].
    unfold filter at 1; fold (filter quoted_in_usdt ts).
    unfold quoted_in_usdt at 1, ticker_symbol. rewrite Hs.
    destruct (endswith s "USDT") eqn:He.
    + split; [ congruence | ].
      intros t [<- | Hin]; [ exists d, s; auto | auto ].
    + split; [ assumption | auto ].
Qed.

Lemma records_of_dicts (l : list pyval) :
  (forall t, In t l -> exists d, t = PDict d) ->
  records l = Ret (map fields_of l).
Proof.
  induction l as [ | t l IH]; intros H; [ reflexivity | ].
  destruct (H t (or_introl eq_refl)) as (d & ->).
  simpl. rewrite IH; [ reflexivity | ]. intros t Ht. apply H. now right.
Qed.

Lemma column_of_keys (f : string -> list pyval) (n : string) (keys : list string) :
  column n (map (fun k => (k, f k)) keys) =
  if mem n keys then Some (f n) else None.
Proof.
  induction keys as [ | k keys IH]; [ reflexivity | ].
  simpl. destruct (String.eqb n k) eqn:E; simpl.
  - apply String.eqb_eq in E. now subst.
  - exact IH.
Qed.

Lemma or_mask_map {A} (m : A -> bool) (g : A -> pyval) (l : list A) :
  or_mask (map m l) (map g l) = map (fun x => m x || isna (g x)) l.
Proof. induction l as [ | x l IH]; simpl; congruence. Qed.

Lemma drop_where_map {A B} (m : A -> bool) (g : A -> B) (l : list A) :
  drop_where (map m l) (map g l) = map g (filter (fun x => negb (m x)) l).
Proof.
  induction l as [ | x l IH]; [ reflexivity | ].
  simpl. destruct (m x); simpl; congruence.
Qed.

Lemma all_false_mask {A} (l : list A) :
  map (fun _ => false) (range_index (length l)) = map (fun _ => false) l.
Proof.
  unfold range_index. rewrite map_map.
  generalize 0. induction l as [ | x l IH]; intros n; simpl; [ reflexivity | ].
  f_equal. apply IH.
Qed.

Lemma apply_format_symbol (l : list pyval) :
  (forall t, In t l ->
     exists d s, t = PDict d /\ assoc "symbol" d = Some (PStr s)
                 /\ endswith s "USDT" = true) ->
  apply format_symbol (map (cell "symbol") (map fields_of l)) =
  Ret (map separated l).
Proof.
  induction l as [ | t l IH]; intros H; [ reflexivity | ].
  destruct (H t (or_introl eq_refl)) as (d & s & -> & Hs & He).
  cbn [map fields_of apply]. unfold cell at 1, separated at 1, ticker_symbol.
  rewrite Hs. cbn [format_symbol obind]. rewrite He.
  rewrite IH by (intros t Ht; apply H; now right).
  destruct (endswith_USDT_split s He) as [_ ->]. reflexivity.
Qed.

Lemma filter_andb {A} (p q : A -> bool) (l : list A) :
  filter (fun x => p x && q x) l = filter q (filter p l).
Proof.
  induction l as [ | x l IH]; [ reflexivity | ].
  simpl. destruct (p x); simpl; [ destruct (q x) | ]; congruence.
Qed.

Lemma filter_map_commute {A B} (p : B -> bool) (g : A -> B) (l : list A) :
  filter p (map g l) = map g (filter (fun x => p (g x)) l).
Proof.
  induction l as [ | x l IH]; [ reflexivity | ].
  simpl. destruct (p (g x)); simpl; congruence.
Qed.

(** ** Exceptions stay inside *)

Section Boundary.

Context {World : Type} (L : Libs World).

(** A [try] whose clauses all return and one of which is
    [except Exception] returns whatever the body does. *)
Lemma dispatch_returns {A} (clauses : list (clause World A)) (e : exn)
  (st : state World) :
  Forall (fun c => forall e st, exists a st', snd c e st = (Ret a, st')) clauses ->
  Exists (fun c => fst c = is_Exception) clauses ->
  exists a st', dispatch clauses e st = (Ret a, st').
Proof.
  induction clauses as [ | [p h] clauses IH]; intros Hall Hex.
  - inversion Hex.
  - simpl. inversion Hall as [ | ? ? Hh Hrest]; subst.
    destruct (p e) eqn:Hp; [ apply Hh | ].
    inversion Hex as [? ? Hhead | ? ? Htail]; subst.
    + simpl in Hhead. subst p. rewrite is_Exception_all in Hp. discriminate.
    + auto.
Qed.

Lemma try_except_returns {A} (body : M World A)
  (clauses : list (clause World A)) (st : state World) :
  Forall (fun c => forall e st, exists a st', snd c e st = (Ret a, st')) clauses ->
  Exists (fun c => fst c = is_Exception) clauses ->
  exists a st', try_except body clauses st = (Ret a, st').
Proof.
  intros Hall Hex. unfold try_except.
  destruct (body st) as [[a | e] st']; [ eauto | ].
  apply dispatch_returns; assumption.
Qed.

Ltac returns :=
  apply try_except_returns;
  [ repeat constructor; intros; simpl; run; eauto
  | repeat (first [ apply Exists_cons_hd; reflexivity | apply Exists_cons_tl ]) ].

Lemma get_binance_client_returns (k s : pyval) (st : state World) :
  exists r st', get_binance_client L k s st = (Ret r, st').
Proof.
  unfold get_binance_client.
  destruct (negb (truthy k) || negb (truthy s)); [ run; eauto | returns ].
Qed.

Lemma test_api_connection_none (k s : pyval) (st st1 : state World) :
  get_binance_client L k s st = (Ret None, st1) ->
  test_api_connection L k s st =
  (Ret (false, "API anahtarları ile istemci oluşturulamadı."), st1).
Proof. intros H. unfold test_api_connection. run. rewrite H. reflexivity. Qed.

Lemma test_api_connection_fetched (k s : pyval) (st st1 : state World) c b w :
  get_binance_client L k s st = (Ret (Some c), st1) ->
  fetch_balance c (st_world st1) = (Ret b, w) ->
  test_api_connection L k s st =
  (Ret (true, "API bağlantısı başarılı."), MkState w (st_stdout st1)).
Proof.
  intros H Hf. unfold test_api_connection. run. rewrite H. run. rewrite Hf.
  reflexivity.
Qed.

Lemma test_api_connection_failed (k s : pyval) (st st1 : state World) c e w :
  get_binance_client L k s st = (Ret (Some c), st1) ->
  fetch_balance c (st_world st1) = (Raise e, w) ->
  test_api_connection L k s st =
  (Ret (false,
        if is_AuthenticationError e
        then "Kimlik doğrulama hatası: " ++ exn_msg e
        else "Bir hata oluştu: " ++ exn_msg e),
   MkState w (st_stdout st1)).
Proof.
  intros H Hf. unfold test_api_connection. run. rewrite H. run. rewrite Hf.
  destruct (is_AuthenticationError e); [ reflexivity | ].
  rewrite is_Exception_all. reflexivity.
Qed.

Lemma test_api_connection_returns (k s : pyval) (st : state World) :
  exists r st', test_api_connection L k s st = (Ret r, st').
Proof.
  destruct (get_binance_client_returns k s st) as ([c | ] & st1 & H).
  - destruct (fetch_balance c (st_world st1)) as [[b | e] w] eqn:Hf.
    + erewrite test_api_connection_fetched; eauto.
    + erewrite test_api_connection_failed; eauto.
  - erewrite test_api_connection_none; eauto.
Qed.

Lemma get_futures_balance_returns (client : option (Client World))
  (st : state World) :
  exists r st', get_futures_balance client st = (Ret r, st').
Proof.
  unfold get_futures_balance. destruct client; [ returns | run; eauto ].
Qed.

Lemma get_futures_balance_failed (c : Client World) (st : state World) e w :
  fetch_balance c (st_world st) = (Raise e, w) ->
  fst (get_futures_balance (Some c) st) = Ret PNone.
Proof.
  intros Hf. unfold get_futures_balance. run.
  rewrite Hf, is_Exception_all. reflexivity.
Qed.

Lemma get_historical_data_returns (client : option (Client World))
  (symbol timeframe limit : pyval) (st : state World) :
  exists r st', get_historical_data L client symbol timeframe limit st = (Ret r, st').
Proof. unfold get_historical_data. returns. Qed.

Lemma create_market_order_returns (client : option (Client World))
  (symbol side amount tp sl : pyval) (st : state World) :
  exists r st', create_market_order L client symbol side amount tp sl st = (Ret r, st').
Proof.
  unfold create_market_order. destruct client; [ returns | run; eauto ].
Qed.

Lemma create_market_order_failed (c : Client World)
  (symbol side amount tp sl : pyval) (st : state World) e w :
  client_create_market_order c symbol side amount (st_world st) = (Raise e, w) ->
  create_market_order L (Some c) symbol side amount tp sl st =
  (Ret (PNone, "Emir oluşturulurken hata: " ++ exn_msg e),
   MkState w (st_stdout st)).
Proof.
  intros Hp. unfold create_market_order. run.
  rewrite Hp, is_Exception_all. reflexivity.
Qed.

Lemma get_24h_ticker_returns (st : state World) :
  exists r st', get_24h_ticker L st = (Ret r, st').
Proof. unfold get_24h_ticker. returns. Qed.

Lemma get_24h_ticker_raise (st : state World) e st' :
  ticker_body L st = (Raise e, st') ->
  fst (get_24h_ticker L st) = Ret None.
Proof.
  intros Hb. unfold get_24h_ticker. run. rewrite Hb.
  destruct (is_RequestException e); [ reflexivity | ].
  rewrite is_Exception_all. reflexivity.
Qed.

Lemma get_position_returns (client : option (Client World)) (symbol : pyval)
  (st : state World) :
  exists r st', get_position client symbol st = (Ret r, st').
Proof.
  unfold get_position. destruct client; [ returns | run; eauto ].
Qed.

Lemma get_position_failed (c : Client World) (symbol : pyval)
  (st : state World) e w :
  fetch_positions c (PList [symbol]) (st_world st) = (Raise e, w) ->
  fst (get_position (Some c) symbol st) = Ret PNone.
Proof.
  intros Hf. unfold get_position. run.
  rewrite Hf, is_Exception_all. reflexivity.
Qed.

End Boundary.

Section Credentials.

Context {World : Type} (L : Libs World).

Lemma get_binance_client_guard (k s : pyval) (st : state World) :
  truthy k = false \/ truthy s = false ->
  get_binance_client L k s st = (Ret None, st).
Proof.
  unfold get_binance_client.
  intros [H | H]; rewrite H; simpl; [ | rewrite orb_true_r ]; reflexivity.
Qed.

Lemma get_binance_client_built (k s : pyval) (st : state World) c w :
  truthy k = true -> truthy s = true ->
  ccxt_binance L (client_config k s) (st_world st) = (Ret c, w) ->
  get_binance_client L k s st = (Ret (Some c), MkState w (st_stdout st)).
Proof.
  intros Hk Hs Hc. unfold get_binance_client. rewrite Hk, Hs. run.
  rewrite Hc. reflexivity.
Qed.

Lemma get_binance_client_failed (k s : pyval) (st : state World) e w :
  truthy k = true -> truthy s = true ->
  ccxt_binance L (client_config k s) (st_world st) = (Raise e, w) ->
  get_binance_client L k s st =
  (Ret None,
   MkState w (st_stdout st ++ ["CCXT istemcisi oluşturulurken hata: " ++ exn_msg e])).
Proof.
  intros Hk Hs Hc. unfold get_binance_client. rewrite Hk, Hs. run.
  rewrite Hc, is_Exception_all. reflexivity.
Qed.

(** C3. When the API key or the secret key is missing (None or empty),
    or when the construction of the exchange object raises,
    [get_binance_client] returns None. *)
Theorem get_binance_client_null (k s : pyval) (st : state World) :
  missing k \/ missing s \/
  (exists e w, ccxt_binance L (client_config k s) (st_world st) = (Raise e, w)) ->
  fst (get_binance_client L k s st) = Ret None.
Proof.
  intros [H | [H | (e & w & H)]].
  - rewrite get_binance_client_guard; auto using missing_not_truthy.
  - rewrite get_binance_client_guard; auto using missing_not_truthy.
  - destruct (truthy k) eqn:Hk; [ destruct (truthy s) eqn:Hs | ].
    + erewrite get_binance_client_failed; eauto.
    + rewrite get_binance_client_guard; auto.
    + rewrite get_binance_client_guard; auto.
Qed.

End Credentials.

Section Connection.

Context {World : Type} (L : Libs World).

(** C8. [test_api_connection] returns a pair of a boolean and a message and
    never raises.  Without an exchange object (missing credentials or a
    failed construction) the pair is false with the construction message;
    when the balance fetch returns it is true with the success message;
    when the fetch raises it is false, with the authentication message for
    an authentication error and the generic message otherwise.  The three
    failure messages differ from one another whatever the text of the
    exceptions. *)
Theorem test_api_connection_report (k s : pyval) (st : state World) :
  match get_binance_client L k s st with
  | (Ret None, st1) =>
      test_api_connection L k s st =
      (Ret (false, "API anahtarları ile istemci oluşturulamadı."), st1)
  | (Ret (Some c), st1) =>
      match fetch_balance c (st_world st1) with
      | (Ret _, w) =>
          test_api_connection L k s st =
          (Ret (true, "API bağlantısı başarılı."), MkState w (st_stdout st1))
      | (Raise e, w) =>
          test_api_connection L k s st =
          (Ret (false,
                if is_AuthenticationError e
                then "Kimlik doğrulama hatası: " ++ exn_msg e
                else "Bir hata oluştu: " ++ exn_msg e),
           MkState w (st_stdout st1))
      end
  | (Raise _, _) => False
  end
  /\ (forall m1 m2 : string,
        "Kimlik doğrulama hatası: " ++ m1 <> "Bir hata oluştu: " ++ m2
        /\ "Kimlik doğrulama hatası: " ++ m1
           <> "API anahtarları ile istemci oluşturulamadı."
        /\ "Bir hata oluştu: " ++ m2
           <> "API anahtarları ile istemci oluşturulamadı.").
Proof.
  split.
  - destruct (get_binance_client L k s st) as [[[c | ] | e] st1] eqn:Hc.
    + destruct (fetch_balance c (st_world st1)) as [[b | e] w] eqn:Hf;
        unfold test_api_connection; run; rewrite Hc; run; rewrite Hf.
      * reflexivity.
      * destruct (is_AuthenticationError e).
        -- reflexivity.
        -- rewrite is_Exception_all. reflexivity.
    + unfold test_api_connection; run; rewrite Hc. reflexivity.
    + destruct (truthy k) eqn:Hk; [ destruct (truthy s) eqn:Hs | ].
      * revert Hc. unfold get_binance_client. rewrite Hk, Hs. run.
        destruct (ccxt_binance L (client_config k s) (st_world st))
          as [[c | e'] w]; try rewrite is_Exception_all; discriminate.
      * rewrite get_binance_client_guard in Hc by auto. discriminate.
      * rewrite get_binance_client_guard in Hc by auto. discriminate.
  - intros m1 m2. repeat split; simpl; discriminate.
Qed.

End Connection.

Section Balance.

Context {World : Type}.

(** C6. With an exchange object whose balance fetch returns a balance in
    which the map under 'total' has no 'USDT' entry, [get_futures_balance]
    returns the integer 0.  Without an exchange object it returns None, and
    when the fetch raises it returns None. *)
Theorem get_futures_balance_default :
  (forall (c : Client World) (st : state World) balance total w,
      fetch_balance c (st_world st) = (Ret balance, w) ->
      getitem balance "total" = Ret (PDict total) ->
      assoc "USDT" total = None ->
      get_futures_balance (Some c) st =
      (Ret (PInt 0), MkState w (st_stdout st)))
  /\ (forall st : state World,
        get_futures_balance None st = (Ret PNone, st))
  /\ (forall (c : Client World) (st : state World) e w,
        fetch_balance c (st_world st) = (Raise e, w) ->
        fst (get_futures_balance (Some c) st) = Ret PNone).
Proof.
  repeat split.
  - intros c st balance total w Hf Ht Hu.
    unfold get_futures_balance. run. rewrite Hf, Ht. simpl.
    rewrite Hu. reflexivity.
  - intros c st e w Hf.
    unfold get_futures_balance. run.
    rewrite Hf, is_Exception_all. reflexivity.
Qed.

End Balance.

Section History.

Context {World : Type} (L : Libs World).

(** Whatever is raised in the body of [get_historical_data] ends in None. *)
Lemma get_historical_data_raise (client : option (Client World))
  (symbol timeframe limit : pyval) (st : state World) e st' :
  historical_body L symbol timeframe limit st = (Raise e, st') ->
  fst (get_historical_data L client symbol timeframe limit st) = Ret None.
Proof.
  intros Hb. unfold get_historical_data. run. rewrite Hb.
  destruct (is_RequestException e); [ reflexivity | ].
  rewrite is_Exception_all. reflexivity.
Qed.

(** The result of [get_historical_data] and the world it leaves are fixed
    by the world it starts in; what it prints is added to what was printed
    before. *)
Lemma get_historical_data_world (client : option (Client World))
  (symbol timeframe limit : pyval) (w : World) :
  exists o w' lines, forall out,
    get_historical_data L client symbol timeframe limit (MkState w out) =
    (o, MkState w' (out ++ lines)).
Proof.
  unfold get_historical_data, historical_body. run. cbn [st_world st_stdout].
  repeat match goal with
    | |- context [match ?x with _ => _ end] =>
        lazymatch x with
        | context [match _ with _ => _ end] => fail
        | _ => destruct x
        end
    end.
  all: cbn [st_world st_stdout].
  all: try (do 2 eexists; exists []; intros out; rewrite app_nil_r; reflexivity).
  all: do 3 eexists; intros out; reflexivity.
Qed.

(** C9. [get_historical_data] does not depend on its client argument: two
    calls that differ in the client, made in states of the world in which
    the end point answers alike, return the same result and leave the
    world in the same state; made in the same state they agree on what
    was printed as well. *)
Theorem get_historical_data_ignores_client (c1 c2 : option (Client World))
  (symbol timeframe limit : pyval) (st1 st2 : state World) :
  st_world st1 = st_world st2 ->
  fst (get_historical_data L c1 symbol timeframe limit st1) =
  fst (get_historical_data L c2 symbol timeframe limit st2)
  /\ st_world (snd (get_historical_data L c1 symbol timeframe limit st1)) =
     st_world (snd (get_historical_data L c2 symbol timeframe limit st2))
  /\ (st_stdout st1 = st_stdout st2 ->
      get_historical_data L c1 symbol timeframe limit st1 =
      get_historical_data L c2 symbol timeframe limit st2).
Proof.
  destruct st1 as [w out1], st2 as [w2 out2]. cbn [st_world st_stdout].
  intros <-.
  destruct (get_historical_data_world c1 symbol timeframe limit w)
    as (o1 & w1 & lines1 & H1).
  destruct (get_historical_data_world c2 symbol timeframe limit w)
    as (o2 & w2 & lines2 & H2).
  assert (Hsame : (o1, MkState w1 ([] ++ lines1)) = (o2, MkState w2 ([] ++ lines2)))
    by (rewrite <- (H1 []), <- (H2 []); reflexivity).
  injection Hsame as -> -> ->.
  rewrite (H1 out1), (H2 out2). cbn [fst snd st_world].
  split; [ reflexivity | split; [ reflexivity | ] ].
  intros ->. reflexivity.
Qed.

(** C4. [get_historical_data] returns the empty table when the end point
    answers with an empty array.  It returns None when the request raises,
    when the answer carries an error status, when the body cannot be
    decoded, when no table can be built from the decoded document, and
    when a cell of the table cannot be converted to a float. *)
Theorem get_historical_data_empty_or_null (client : option (Client World))
  (s : string) (timeframe limit : pyval) (st : state World) :
  (forall r w,
      klines_request L s timeframe limit (st_world st) = (Ret r, w) ->
      raise_for_status r = Ret tt ->
      json r = Ret (PList []) ->
      get_historical_data L client (PStr s) timeframe limit st =
      (Ret (Some Pandas.empty), MkState w (st_stdout st)))
  /\ (forall e w,
        klines_request L s timeframe limit (st_world st) = (Raise e, w) ->
        fst (get_historical_data L client (PStr s) timeframe limit st) = Ret None)
  /\ (forall r w e,
        klines_request L s timeframe limit (st_world st) = (Ret r, w) ->
        raise_for_status r = Raise e ->
        fst (get_historical_data L client (PStr s) timeframe limit st) = Ret None)
  /\ (forall r w e,
        klines_request L s timeframe limit (st_world st) = (Ret r, w) ->
        raise_for_status r = Ret tt ->
        json r = Raise e ->
        fst (get_historical_data L client (PStr s) timeframe limit st) = Ret None)
  /\ (forall r w data e,
        klines_request L s timeframe limit (st_world st) = (Ret r, w) ->
        raise_for_status r = Ret tt ->
        json r = Ret data ->
        truthy data = true ->
        pd_DataFrame L data kline_columns = Raise e ->
        fst (get_historical_data L client (PStr s) timeframe limit st) = Ret None)
  /\ (forall r w data df0 ts ts' df1 df2 n col v e,
        klines_request L s timeframe limit (st_world st) = (Ret r, w) ->
        raise_for_status r = Ret tt ->
        json r = Ret data ->
        truthy data = true ->
        pd_DataFrame L data kline_columns = Ret df0 ->
        get_column "timestamp" df0 = Ret ts ->
        pd_to_datetime L ts = Ret ts' ->
        set_index "timestamp" (set_column "timestamp" ts' df0) = Ret df1 ->
        select ["open"; "high"; "low"; "close"; "volume"] df1 = Ret df2 ->
        In (n, col) (df_columns df2) -> In v col ->
        float_of L v = Raise e ->
        fst (get_historical_data L client (PStr s) timeframe limit st) = Ret None).
Proof.
  unfold klines_request.
  repeat split.
  - intros r w Hq Hs Hj.
    unfold get_historical_data, historical_body. run.
    cbn [str_replace_slash]. rewrite Hq, Hs, Hj. reflexivity.
  - intros e w Hq.
    eapply get_historical_data_raise with (e := e).
    unfold historical_body. run. cbn [str_replace_slash]. rewrite Hq.
    reflexivity.
  - intros r w e Hq Hs.
    eapply get_historical_data_raise with (e := e).
    unfold historical_body. run. cbn [str_replace_slash]. rewrite Hq, Hs.
    reflexivity.
  - intros r w e Hq Hs Hj.
    eapply get_historical_data_raise with (e := e).
    unfold historical_body. run. cbn [str_replace_slash]. rewrite Hq, Hs, Hj.
    reflexivity.
  - intros r w data e Hq Hs Hj Ht Hd.
    eapply get_historical_data_raise with (e := e).
    unfold historical_body. run. cbn [str_replace_slash].
    rewrite Hq, Hs, Hj, Ht, Hd. reflexivity.
  - intros r w data df0 ts ts' df1 df2 n col v e
           Hq Hs Hj Ht Hd Hc Hdt Hi Hsel Hn Hv Hf.
    destruct (apply_columns_raises (float_of L) (df_columns df2) n col v e
                Hn Hv Hf) as (e' & He').
    eapply get_historical_data_raise with (e := e').
    unfold historical_body. run. cbn [str_replace_slash].
    rewrite Hq, Hs, Hj, Ht, Hd, Hc, Hdt, Hi, Hsel.
    unfold astype, obind. rewrite He'. reflexivity.
Qed.

End History.

Section Orders.

Context {World : Type} (L : Libs World).

(** A protective order never raises and only adds to what was printed. *)
Lemma protective_order_returns (c : Client World)
  (symbol side amount price : pyval) (type created failed : string)
  (st : state World) :
  exists w lines,
    protective_order L c symbol side amount price type created failed st =
    (Ret tt, MkState w (st_stdout st ++ lines)).
Proof.
  unfold protective_order. destruct (truthy price).
  - run.
    destruct (create_order c symbol (PStr type) side amount PNone
                (stop_params price) (st_world st)) as [[o | e] w].
    + exists w, [created ++ str L o]. reflexivity.
    + rewrite is_Exception_all. exists w, [failed ++ exn_msg e]. reflexivity.
  - exists (st_world st), []. rewrite app_nil_r. destruct st; reflexivity.
Qed.

(** A protective order that raises is caught and its failure printed. *)
Lemma protective_order_failure (c : Client World)
  (symbol side amount price : pyval) (type created failed : string)
  (st : state World) e w :
  truthy price = true ->
  create_order c symbol (PStr type) side amount PNone (stop_params price)
    (st_world st) = (Raise e, w) ->
  protective_order L c symbol side amount price type created failed st =
  (Ret tt, MkState w (st_stdout st ++ [failed ++ exn_msg e])).
Proof.
  intros Hp Hc. unfold protective_order. rewrite Hp. run.
  rewrite Hc, is_Exception_all. reflexivity.
Qed.

(** Once the primary order is placed the result is settled. *)
Lemma create_market_order_placed (c : Client World)
  (symbol side amount tp sl : pyval) (st : state World) order w :
  client_create_market_order c symbol side amount (st_world st) = (Ret order, w) ->
  create_market_order L (Some c) symbol side amount tp sl st =
  (Ret (order, "Emir başarıyla oluşturuldu."),
   after_stop_loss L c symbol side amount tp sl order st w).
Proof.
  intros Hp.
  unfold create_market_order, after_stop_loss, after_take_profit,
    take_profit, stop_loss, after_primary.
  run. rewrite Hp. cbn [st_world st_stdout].
  set (st1 := MkState w (st_stdout st ++ ["Market order created: " ++ str L order])).
  destruct (protective_order_returns c symbol (opposite side) amount tp
              "TAKE_PROFIT_MARKET" "Take profit order created: "
              "Take profit emri oluşturulurken hata: " st1)
    as (w2 & l2 & H2).
  rewrite H2. cbn [snd].
  destruct (protective_order_returns c symbol (opposite side) amount sl
              "STOP_MARKET" "Stop loss order created: "
              "Stop loss emri oluşturulurken hata: "
              (MkState w2 (st_stdout st1 ++ l2)))
    as (w3 & l3 & H3).
  rewrite H3. reflexivity.
Qed.

(** C1. When the primary market-order call returns an order,
    [create_market_order] returns that order with the success message,
    whatever the take-profit and stop-loss calls do.  A take-profit or
    stop-loss call that raises is caught inside the function and its
    failure is printed. *)
Theorem create_market_order_primary
  (c : Client World) (symbol side amount take_profit_price stop_loss_price : pyval)
  (st : state World) (order : pyval) (w : World) :
  client_create_market_order c symbol side amount (st_world st) = (Ret order, w) ->
  let final := after_stop_loss L c symbol side amount take_profit_price
                 stop_loss_price order st w in
  create_market_order L (Some c) symbol side amount
    take_profit_price stop_loss_price st =
  (Ret (order, "Emir başarıyla oluşturuldu."), final)
  /\ (forall e w',
        truthy take_profit_price = true ->
        create_order c symbol (PStr "TAKE_PROFIT_MARKET") (opposite side)
          amount PNone (stop_params take_profit_price) w = (Raise e, w') ->
        In ("Take profit emri oluşturulurken hata: " ++ exn_msg e)
           (st_stdout final))
  /\ (forall e w',
        truthy stop_loss_price = true ->
        create_order c symbol (PStr "STOP_MARKET") (opposite side)
          amount PNone (stop_params stop_loss_price)
          (st_world (after_take_profit L c symbol side amount
                       take_profit_price order st w)) = (Raise e, w') ->
        In ("Stop loss emri oluşturulurken hata: " ++ exn_msg e)
           (st_stdout final)).
Proof.
  intros Hp final. split; [ | split ].
  - apply create_market_order_placed. exact Hp.
  - intros e w' Ht Hc. subst final.
    unfold after_stop_loss, after_take_profit, stop_loss, take_profit.
    rewrite (protective_order_failure c symbol (opposite side) amount
               take_profit_price _ _ _ (after_primary L order st w) e w' Ht Hc).
    cbn [snd].
    match goal with
    | |- context [protective_order L c ?a ?b ?d ?p ?t ?m ?f ?s] =>
        destruct (protective_order_returns c a b d p t m f s)
          as (w3 & l3 & ->)
    end.
    cbn [snd st_stdout]. apply in_or_app. left. apply in_or_app. right.
    left. reflexivity.
  - intros e w' Hs Hc. subst final. unfold after_stop_loss, stop_loss.
    rewrite (protective_order_failure c symbol (opposite side) amount
               stop_loss_price _ _ _ _ e w' Hs Hc).
    cbn [snd st_stdout]. apply in_or_app. right. left. reflexivity.
Qed.

End Orders.

(** C1 at an exchange object whose protective orders are rejected: the
    primary order comes back with the success message and both rejections
    are printed. *)
Lemma create_market_order_primary_witness :
  create_market_order ticker_libs (Some flaky) (PStr "BTC/USDT") (PStr "buy")
    (PInt 1) (PInt 70000) (PInt 60000) start =
  (Ret (filled, "Emir başarıyla oluşturuldu."),
   MkState 3 ["Market order created: {...}";
              "Take profit emri oluşturulurken hata: order rejected";
              "Stop loss emri oluşturulurken hata: order rejected"]).
Proof.
  exact (proj1 (create_market_order_primary ticker_libs flaky
                  (PStr "BTC/USDT") (PStr "buy") (PInt 1) (PInt 70000)
                  (PInt 60000) start filled 1 eq_refl)).
Defined.

Section Ticker.

Context {World : Type} (L : Libs World).

Lemma get_24h_ticker_some (st : state World) (df : DataFrame) :
  fst (get_24h_ticker L st) = Ret (Some df) ->
  exists st', ticker_body L st = (Ret (Some df), st').
Proof.
  unfold get_24h_ticker. run.
  destruct (ticker_body L st) as [[[d | ] | e] st']; cbn [fst].
  - intros H. injection H as ->. eauto.
  - discriminate.
  - destruct (is_RequestException e); [ discriminate | ].
    rewrite is_Exception_all. discriminate.
Qed.

(** The table built from the kept entries, before rows are dropped. *)
Lemma ticker_pipeline (usdt : list pyval) (df : DataFrame) :
  (forall t, In t usdt ->
     exists d s, t = PDict d /\ assoc "symbol" d = Some (PStr s)
                 /\ endswith s "USDT" = true) ->
  obind (from_records usdt) (fun df =>
  obind (select ticker_columns df) (fun df =>
  let df := rename ticker_names df in
  obind (coerce_column L "Değişim (%)" df) (fun df =>
  obind (coerce_column L "Son Fiyat" df) (fun df =>
  obind (coerce_column L "Hacim (USDT)" df) (fun df =>
  obind (get_column "Sembol" df) (fun sembol =>
  obind (apply format_symbol sembol) (fun sembol =>
  let df := set_column "Sembol" sembol df in
  Ret (dropna df)))))))) = Ret df ->
  let kept := filter (complete L) usdt in
  values "Sembol" df = map separated kept
  /\ values "Değişim (%)" df = map (numeric L "priceChangePercent") kept
  /\ values "Son Fiyat" df = map (numeric L "lastPrice") kept
  /\ values "Hacim (USDT)" df = map (numeric L "quoteVolume") kept.
Proof.
  intros Hall.
  unfold from_records. rewrite records_of_dicts
    by (intros t Ht; destruct (Hall t Ht) as (d & _ & -> & _); eauto).
  cbn [obind]. unfold select, ticker_columns. cbn [df_columns select_columns].
  rewrite !column_of_keys.
  set (recs := map fields_of usdt). set (keys := union_keys [] recs).
  destruct (mem "symbol" keys); [ | discriminate ].
  destruct (mem "priceChangePercent" keys); [ | discriminate ].
  destruct (mem "lastPrice" keys); [ | discriminate ].
  destruct (mem "quoteVolume" keys); [ | discriminate ].
  cbn -[cell recs apply dropna].
  unfold recs at 1. rewrite (apply_format_symbol usdt Hall).
  cbn -[cell recs dropna].
  intros H. injection H as <-.
  assert (Hnum : forall n, map (to_numeric L) (map (cell n) recs)
                           = map (numeric L n) usdt)
    by (intros n; unfold recs; rewrite !map_map; reflexivity).
  rewrite !Hnum.
  unfold dropna, na_mask, values.
  cbn -[cell recs numeric separated range_index].
  replace (Datatypes.length recs) with (Datatypes.length usdt)
    by (unfold recs; now rewrite length_map).
  rewrite all_false_mask, !or_mask_map, !drop_where_map.
  assert (Hkeep : filter
            (fun t => negb ((((false || isna (separated t))
                              || isna (numeric L "priceChangePercent" t))
                             || isna (numeric L "lastPrice" t))
                            || isna (numeric L "quoteVolume" t))) usdt
          = filter (complete L) usdt).
  { apply filter_ext_in. intros t Ht.
    destruct (Hall t Ht) as (d & x & -> & Hx & _).
    unfold complete, separated, ticker_symbol. rewrite Hx. cbn [isna orb].
    destruct (isna (numeric L "priceChangePercent" (PDict d)));
      destruct (isna (numeric L "lastPrice" (PDict d)));
      destruct (isna (numeric L "quoteVolume" (PDict d))); reflexivity. }
  rewrite Hkeep. repeat split.
Qed.

(** C5 as amended. When the ticker end point answers with a list and
    [get_24h_ticker] returns a table, the rows of the table are, in order,
    the entries whose symbol ends in USDT and whose three numeric fields
    are present after coercion.  The symbol of a kept entry appears with a
    separator before the trailing USDT.  The symbol of an entry that does
    not end in USDT is not in the table. *)
Theorem get_24h_ticker_rows (st : state World) r w (ts : list pyval)
  (df : DataFrame) :
  ticker_request L (st_world st) = (Ret r, w) ->
  raise_for_status r = Ret tt ->
  json r = Ret (PList ts) ->
  fst (get_24h_ticker L st) = Ret (Some df) ->
  let kept := filter (fun t => quoted_in_usdt t && complete L t) ts in
  (values "Sembol" df = map separated kept
   /\ values "Değişim (%)" df = map (numeric L "priceChangePercent") kept
   /\ values "Son Fiyat" df = map (numeric L "lastPrice") kept
   /\ values "Hacim (USDT)" df = map (numeric L "quoteVolume") kept)
  /\ (forall v, In v (values "Sembol" df) ->
        exists t base, In t ts /\ ticker_symbol t = Some (base ++ "USDT")
                       /\ v = PStr (base ++ "/USDT"))
  /\ (forall t s, In t ts -> ticker_symbol t = Some s ->
        endswith s "USDT" = false -> ~ In (PStr s) (values "Sembol" df)).
Proof.
  intros Hq Hs Hj Hr kept. unfold ticker_request in Hq.
  destruct (get_24h_ticker_some st df Hr) as (st' & Hb).
  revert Hb. unfold ticker_body. run. rewrite Hq, Hs, Hj. cbn [iterate].
  destruct (usdt_tickers ts) as [usdt | e] eqn:Hu; [ | discriminate ].
  intros Hb.
  destruct (usdt_tickers_filter ts usdt Hu) as [Hf Hall].
  assert (Hkept : kept = filter (complete L) usdt)
    by (unfold kept; rewrite filter_andb; congruence).
  assert (Hcols :
    values "Sembol" df = map separated kept
    /\ values "Değişim (%)" df = map (numeric L "priceChangePercent") kept
    /\ values "Son Fiyat" df = map (numeric L "lastPrice") kept
    /\ values "Hacim (USDT)" df = map (numeric L "quoteVolume") kept).
  { rewrite Hkept. clear Hkept Hf Hu. revert Hb.
    destruct usdt as [ | u us].
    - intros H. injection H as <- _. repeat split.
    - intros H. apply (ticker_pipeline (u :: us) df Hall).
      repeat match type of H with
        | context [match ?o with Ret _ => _ | Raise _ => _ end] =>
            let E := fresh in
            destruct o eqn:E; [ cbn [obind] | discriminate H ]
        end.
      congruence. }
  split; [ exact Hcols | ].
  destruct Hcols as [Hsem _]. rewrite Hsem. split.
  - intros v Hv. apply in_map_iff in Hv as (t & <- & Ht).
    apply filter_In in Ht as [Ht Hk].
    apply andb_true_iff in Hk as [Hk _].
    unfold quoted_in_usdt in Hk. unfold separated.
    destruct (ticker_symbol t) as [x | ] eqn:Hx; [ | discriminate ].
    destruct (endswith_USDT_split x Hk) as [Hsplit _].
    exists t, (slice_to_m4 x). rewrite <- Hsplit. auto.
  - intros t s Ht Hsym He Hin. apply in_map_iff in Hin as (t' & Heq & _).
    unfold separated in Heq.
    destruct (ticker_symbol t') as [x | ]; [ | discriminate ].
    injection Heq as <-.
    change (slice_to_m4 x ++ "/USDT")
      with (slice_to_m4 x ++ "/" ++ "USDT") in He.
    rewrite <- (append_assoc (slice_to_m4 x) "/" "USDT") in He.
    rewrite endswith_append in He. discriminate.
Qed.

End Ticker.

Section Positions.

Context {World : Type}.

(** What [get_position] returns when the fetch returned a list that starts
    with [first]. *)
Lemma get_position_first (c : Client World) (symbol : pyval)
  (st : state World) first rest w :
  fetch_positions c (PList [symbol]) (st_world st) =
    (Ret (PList (first :: rest)), w) ->
  fst (get_position (Some c) symbol st) =
  Ret (match contracts_of first with
       | Some v => if truthy v && ne_zero v then first else PNone
       | None => PNone
       end).
Proof.
  intros Hf. unfold get_position. run. rewrite Hf. cbn [truthy getitem0].
  destruct first; cbn [dict_get contracts_of]; try rewrite is_Exception_all;
    try reflexivity.
  destruct (assoc "contracts" d) as [v | ] eqn:Hv; cbn [truthy].
  - destruct (truthy v); cbn [getitem andb]; [ | reflexivity ].
    rewrite Hv. destruct (ne_zero v); reflexivity.
  - reflexivity.
Qed.

(** C7. [get_position] returns a position descriptor only when it is the
    first descriptor fetched and its contract count is not zero.  When the
    descriptor fetched has a contract count equal to zero, when the list
    fetched is empty, or when the fetch raises, it returns None. *)
Theorem get_position_nonzero_only (c : Client World) (symbol : pyval)
  (st : state World) :
  (forall p, fst (get_position (Some c) symbol st) = Ret p -> p <> PNone ->
     exists rest w v,
       fetch_positions c (PList [symbol]) (st_world st) =
         (Ret (PList (p :: rest)), w)
       /\ contracts_of p = Some v /\ ne_zero v = true)
  /\ (forall first rest w v,
        fetch_positions c (PList [symbol]) (st_world st) =
          (Ret (PList (first :: rest)), w) ->
        contracts_of first = Some v -> ne_zero v = false ->
        fst (get_position (Some c) symbol st) = Ret PNone)
  /\ (forall w,
        fetch_positions c (PList [symbol]) (st_world st) = (Ret (PList []), w) ->
        fst (get_position (Some c) symbol st) = Ret PNone)
  /\ (forall e w,
        fetch_positions c (PList [symbol]) (st_world st) = (Raise e, w) ->
        fst (get_position (Some c) symbol st) = Ret PNone).
Proof.
  repeat split.
  - intros p Hr Hp.
    destruct (fetch_positions c (PList [symbol]) (st_world st))
      as [[positions | e] w] eqn:Hf.
    + destruct positions as [ | | | | s | [ | first rest] | d | ];
        try (revert Hr; unfold get_position; run; rewrite Hf;
             cbn [truthy getitem0];
             repeat (try rewrite is_Exception_all; crunch; cbn [fst]);
             intros Hr; injection Hr as <-; congruence).
      { revert Hr. unfold get_position. run. rewrite Hf.
        destruct s; cbn [truthy getitem0 dict_get];
          try rewrite is_Exception_all; cbn [fst];
          intros Hr; injection Hr as <-; congruence. }
      rewrite (get_position_first c symbol st first rest w Hf) in Hr.
      destruct (contracts_of first) as [v | ] eqn:Hv;
        [ | injection Hr as <-; congruence ].
      destruct (truthy v); cbn [andb] in Hr;
        [ | injection Hr as <-; congruence ].
      destruct (ne_zero v) eqn:Hn; injection Hr as <-; [ | congruence ].
      exists rest, w, v. auto.
    + revert Hr. unfold get_position. run. rewrite Hf, is_Exception_all.
      cbn [fst]. intros Hr; injection Hr as <-; congruence.
  - intros first rest w v Hf Hv Hn.
    rewrite (get_position_first c symbol st first rest w Hf), Hv.
    rewrite (ne_zero_false_not_truthy v Hn). reflexivity.
  - intros w Hf. unfold get_position. run. rewrite Hf. reflexivity.
  - intros e w Hf. unfold get_position. run.
    rewrite Hf, is_Exception_all. reflexivity.
Qed.

(** C10. [get_position] looks at the first descriptor of the list fetched
    and at no other: when the first descriptor has no contract count or a
    contract count that is false in a condition (zero, None, empty), the
    function returns None whatever descriptors follow it. *)
Theorem get_position_first_only (c : Client World) (symbol : pyval)
  (st : state World) first rest w :
  fetch_positions c (PList [symbol]) (st_world st) =
    (Ret (PList (first :: rest)), w) ->
  contracts_of first = None
  \/ (exists v, contracts_of first = Some v /\ truthy v = false) ->
  fst (get_position (Some c) symbol st) = Ret PNone.
Proof.
  intros Hf H. rewrite (get_position_first c symbol st first rest w Hf).
  destruct H as [-> | (v & -> & ->)]; reflexivity.
Qed.

End Positions.

Section NoEscape.

Context {World : Type} (L : Libs World).

(** A protective order that raises leaves its line in what
    [create_market_order] has printed when it returns. *)
Lemma protective_failures_printed (c : Client World)
  (symbol side amount tp sl order : pyval) (st : state World) (w : World) :
  (forall e w',
      truthy tp = true ->
      create_order c symbol (PStr "TAKE_PROFIT_MARKET") (opposite side)
        amount PNone (stop_params tp) w = (Raise e, w') ->
      In ("Take profit emri oluşturulurken hata: " ++ exn_msg e)
         (st_stdout (after_stop_loss L c symbol side amount tp sl order st w)))
  /\ (forall e w',
        truthy sl = true ->
        create_order c symbol (PStr "STOP_MARKET") (opposite side)
          amount PNone (stop_params sl)
          (st_world (after_take_profit L c symbol side amount tp order st w))
          = (Raise e, w') ->
        In ("Stop loss emri oluşturulurken hata: " ++ exn_msg e)
           (st_stdout (after_stop_loss L c symbol side amount tp sl order st w))).
Proof.
  split.
  - intros e w' Ht Hc.
    unfold after_stop_loss, after_take_profit, stop_loss, take_profit.
    rewrite (protective_order_failure L c symbol (opposite side) amount
               tp _ _ _ (after_primary L order st w) e w' Ht Hc).
    cbn [snd].
    match goal with
    | |- context [protective_order L c ?a ?b ?d ?p ?t ?m ?f ?s] =>
        destruct (protective_order_returns L c a b d p t m f s)
          as (w3 & l3 & ->)
    end.
    cbn [snd st_stdout]. apply in_or_app. left. apply in_or_app. right.
    left. reflexivity.
  - intros e w' Hs Hc. unfold after_stop_loss, stop_loss.
    rewrite (protective_order_failure L c symbol (opposite side) amount
               sl _ _ _ _ e w' Hs Hc).
    cbn [snd st_stdout]. apply in_or_app. right. left. reflexivity.
Qed.

(** C2 as amended. What is raised is an instance of [Exception], the
    class the [except Exception] clauses of the module catch.  Every
    public function of the module returns: no such exception leaves it.
    An exception raised by the main call of a function is turned into the
    function's sentinel: None, false with a message, or None with a
    message.  An exception raised by a take-profit or stop-loss call of
    [create_market_order] is caught as well and its failure line is
    printed, and the function still returns the primary order with the
    success message. *)
Theorem exceptions_stay_inside :
  (forall k s st,
      exists r st', get_binance_client L k s st = (Ret r, st'))
  /\ (forall k s st,
        exists r st', test_api_connection L k s st = (Ret r, st'))
  /\ (forall client (st : state World),
        exists r st', get_futures_balance client st = (Ret r, st'))
  /\ (forall client symbol timeframe limit st,
        exists r st',
          get_historical_data L client symbol timeframe limit st = (Ret r, st'))
  /\ (forall client symbol side amount tp sl st,
        exists r st',
          create_market_order L client symbol side amount tp sl st = (Ret r, st'))
  /\ (forall st, exists r st', get_24h_ticker L st = (Ret r, st'))
  /\ (forall client symbol (st : state World),
        exists r st', get_position client symbol st = (Ret r, st'))
  /\ (forall k s st e w,
        truthy k = true -> truthy s = true ->
        ccxt_binance L (client_config k s) (st_world st) = (Raise e, w) ->
        fst (get_binance_client L k s st) = Ret None)
  /\ (forall k s st st1 c e w,
        get_binance_client L k s st = (Ret (Some c), st1) ->
        fetch_balance c (st_world st1) = (Raise e, w) ->
        exists m, fst (test_api_connection L k s st) = Ret (false, m))
  /\ (forall c (st : state World) e w,
        fetch_balance c (st_world st) = (Raise e, w) ->
        fst (get_futures_balance (Some c) st) = Ret PNone)
  /\ (forall client symbol timeframe limit st e st',
        historical_body L symbol timeframe limit st = (Raise e, st') ->
        fst (get_historical_data L client symbol timeframe limit st) = Ret None)
  /\ (forall c symbol side amount tp sl st e w,
        client_create_market_order c symbol side amount (st_world st)
          = (Raise e, w) ->
        exists m,
          fst (create_market_order L (Some c) symbol side amount tp sl st)
          = Ret (PNone, m))
  /\ (forall st e st',
        ticker_body L st = (Raise e, st') ->
        fst (get_24h_ticker L st) = Ret None)
  /\ (forall c symbol (st : state World) e w,
        fetch_positions c (PList [symbol]) (st_world st) = (Raise e, w) ->
        fst (get_position (Some c) symbol st) = Ret PNone)
  /\ (forall c symbol side amount tp sl st order w,
        client_create_market_order c symbol side amount (st_world st)
          = (Ret order, w) ->
        create_market_order L (Some c) symbol side amount tp sl st
        = (Ret (order, "Emir başarıyla oluşturuldu."),
           after_stop_loss L c symbol side amount tp sl order st w)
        /\ (forall e w',
              truthy tp = true ->
              create_order c symbol (PStr "TAKE_PROFIT_MARKET") (opposite side)
                amount PNone (stop_params tp) w = (Raise e, w') ->
              In ("Take profit emri oluşturulurken hata: " ++ exn_msg e)
                 (st_stdout (after_stop_loss L c symbol side amount tp sl
                               order st w)))
        /\ (forall e w',
              truthy sl = true ->
              create_order c symbol (PStr "STOP_MARKET") (opposite side)
                amount PNone (stop_params sl)
                (st_world (after_take_profit L c symbol side amount tp
                             order st w)) = (Raise e, w') ->
              In ("Stop loss emri oluşturulurken hata: " ++ exn_msg e)
                 (st_stdout (after_stop_loss L c symbol side amount tp sl
                               order st w)))).
Proof.
  repeat match goal with |- _ /\ _ => split end.
  - apply get_binance_client_returns.
  - apply test_api_connection_returns.
  - apply get_futures_balance_returns.
  - apply get_historical_data_returns.
  - apply create_market_order_returns.
  - apply get_24h_ticker_returns.
  - apply get_position_returns.
  - intros k s st e w Hk Hs Hc.
    rewrite (get_binance_client_failed L k s st e w Hk Hs Hc). reflexivity.
  - intros k s st st1 c e w Hc Hf.
    rewrite (test_api_connection_failed L k s st st1 c e w Hc Hf).
    eexists. reflexivity.
  - intros c st e w Hf. exact (get_futures_balance_failed c st e w Hf).
  - intros client symbol timeframe limit st e st' Hb.
    exact (get_historical_data_raise L client symbol timeframe limit st e st' Hb).
  - intros c symbol side amount tp sl st e w Hp.
    rewrite (create_market_order_failed L c symbol side amount tp sl st e w Hp).
    eexists. reflexivity.
  - intros st e st' Hb. exact (get_24h_ticker_raise L st e st' Hb).
  - intros c symbol st e w Hf. exact (get_position_failed c symbol st e w Hf).
  - intros c symbol side amount tp sl st order w Hp. split.
    + exact (create_market_order_placed L c symbol side amount tp sl st
               order w Hp).
    + exact (protective_failures_printed c symbol side amount tp sl order st w).
Qed.

End NoEscape.

(** ** Worked cases *)

(** C2 as it was stated fails at an exchange object whose take-profit order
    is rejected: the call into the client raises, and the function returns
    the order placed with the success message, which is no sentinel. *)
Lemma protective_failure_is_no_sentinel :
  create_order flaky (PStr "BTC/USDT") (PStr "TAKE_PROFIT_MARKET") (PStr "sell")
    (PInt 1) PNone (stop_params (PInt 70000)) 1 = (Raise rejected, 2)
  /\ create_market_order ticker_libs (Some flaky) (PStr "BTC/USDT") (PStr "buy")
       (PInt 1) (PInt 70000) PNone start =
     (Ret (filled, "Emir başarıyla oluşturuldu."),
      MkState 2 ["Market order created: {...}";
                 "Take profit emri oluşturulurken hata: order rejected"])
  /\ filled <> PNone.
Proof. repeat split. discriminate. Qed.

(** C3 with an empty API key, and with a constructor that raises. *)
Lemma get_binance_client_null_witness :
  fst (get_binance_client ticker_libs (PStr "") (PStr "s3cret") start) = Ret None
  /\ fst (get_binance_client (stub_libs (Raise unreachable) (Raise unreachable) no_table)
            (PStr "key") (PStr "s3cret") start) = Ret None.
Proof.
  split.
  - apply get_binance_client_null. left. right. reflexivity.
  - apply get_binance_client_null. right. right.
    exists unreachable, 1. reflexivity.
Defined.

(** C4 with an empty array, with a request that fails, and with a candle
    whose closing price is no number. *)
Lemma get_historical_data_empty_or_null_witness :
  get_historical_data (stub_libs (Ret flaky) (ok_response (PList [])) no_table)
    None (PStr "BTC/USDT") (PStr "1h") (PInt 100) start =
  (Ret (Some Pandas.empty), MkState 1 [])
  /\ fst (get_historical_data
            (stub_libs (Ret flaky) (Raise unreachable) no_table)
            None (PStr "BTC/USDT") (PStr "1h") (PInt 100) start) = Ret None
  /\ fst (get_historical_data
            (stub_libs (Ret flaky) (ok_response one_kline)
               (Ret broken_candles))
            None (PStr "BTC/USDT") (PStr "1h") (PInt 100) start) = Ret None.
Proof.
  split; [ | split ].
  - destruct (get_historical_data_empty_or_null
                (stub_libs (Ret flaky) (ok_response (PList [])) no_table)
                None "BTC/USDT" (PStr "1h") (PInt 100) start) as (H & _).
    eapply H; reflexivity.
  - destruct (get_historical_data_empty_or_null
                (stub_libs (Ret flaky) (Raise unreachable) no_table)
                None "BTC/USDT" (PStr "1h") (PInt 100) start) as (_ & H & _).
    eapply H; reflexivity.
  - destruct (get_historical_data_empty_or_null
                (stub_libs (Ret flaky)
                   (ok_response one_kline)
                   (Ret broken_candles))
                None "BTC/USDT" (PStr "1h") (PInt 100) start)
      as (_ & _ & _ & _ & _ & H).
    eapply (H _ _ _ _ _ _ _ _ "close" [PStr "n/a"] (PStr "n/a"));
      try reflexivity; simpl; auto.
Defined.

(** C5 as amended at the fixture: the table has the one complete entry
    quoted in USDT. *)
Lemma get_24h_ticker_rows_witness :
  fst (get_24h_ticker ticker_libs start) = Ret (Some ticker_table)
  /\ values "Sembol" ticker_table = [PStr "BTC/USDT"].
Proof.
  split; [ reflexivity | ].
  exact (proj1 (proj1 (get_24h_ticker_rows ticker_libs start
                         (MkResponse (Ret tt) (Ret (PList ticker_fixture))) 1
                         ticker_fixture ticker_table
                         eq_refl eq_refl eq_refl eq_refl))).
Defined.

(** C5 as it was stated fails at the fixture: ETHUSDT ends in USDT and is
    not in the table, because its last price is null and the row is
    dropped. *)
Lemma get_24h_ticker_drops_incomplete :
  fst (get_24h_ticker ticker_libs start) = Ret (Some ticker_table)
  /\ In ethusdt ticker_fixture
  /\ quoted_in_usdt ethusdt = true
  /\ map separated (filter quoted_in_usdt ticker_fixture)
     = [PStr "BTC/USDT"; PStr "ETH/USDT"]
  /\ values "Sembol" ticker_table = [PStr "BTC/USDT"]
  /\ values "Sembol" ticker_table
     <> map separated (filter quoted_in_usdt ticker_fixture).
Proof.
  repeat split; try reflexivity.
  - right. left. reflexivity.
  - discriminate.
Qed.

(** C6 with a balance in BTC only, and with an exchange out of reach. *)
Lemma get_futures_balance_default_witness :
  get_futures_balance (Some flaky) start = (Ret (PInt 0), MkState 1 [])
  /\ fst (get_futures_balance (Some offline) start) = Ret PNone.
Proof.
  destruct (@get_futures_balance_default nat) as (H1 & _ & H3). split.
  - eapply (H1 flaky start); reflexivity.
  - eapply (H3 offline start); reflexivity.
Defined.

(** C7 with three contracts held, and with none. *)
Lemma get_position_nonzero_only_witness :
  (exists rest w v,
      fetch_positions holding (PList [PStr "BTC/USDT"]) 0
        = (Ret (PList (long3 :: rest)), w)
      /\ contracts_of long3 = Some v /\ ne_zero v = true)
  /\ fst (get_position (Some flaky) (PStr "BTC/USDT") start) = Ret PNone.
Proof.
  split.
  - destruct (get_position_nonzero_only holding (PStr "BTC/USDT") start)
      as (H & _).
    apply (H long3); [ reflexivity | discriminate ].
  - destruct (get_position_nonzero_only flaky (PStr "BTC/USDT") start)
      as (_ & H & _).
    eapply H; reflexivity.
Defined.

(** C10 with a list whose first descriptor has no contracts and whose
    second has three. *)
Lemma get_position_first_only_witness :
  fetch_positions flaky (PList [PStr "BTC/USDT"]) 0 = (Ret (PList [flat; long3]), 1)
  /\ contracts_of long3 = Some (PFloat (S754_finite false 3 0))
  /\ fst (get_position (Some flaky) (PStr "BTC/USDT") start) = Ret PNone.
Proof.
  split; [ reflexivity | split; [ reflexivity | ] ].
  apply (get_position_first_only flaky (PStr "BTC/USDT") start flat [long3] 1).
  - reflexivity.
  - right. exists (PFloat (S754_zero false)). split; reflexivity.
Defined.

(** C8 at the three kinds of failure and at a success. *)
Example test_api_connection_cases :
  fst (test_api_connection ticker_libs (PStr "") (PStr "s3cret") start)
  = Ret (false, "API anahtarları ile istemci oluşturulamadı.")
  /\ fst (test_api_connection ticker_libs (PStr "key") (PStr "s3cret") start)
     = Ret (true, "API bağlantısı başarılı.")
  /\ fst (test_api_connection
            (stub_libs (Ret refused) (Raise unreachable) no_table)
            (PStr "key") (PStr "s3cret") start)
     = Ret (false, "Kimlik doğrulama hatası: invalid api key")
  /\ fst (test_api_connection
            (stub_libs (Ret offline) (Raise unreachable) no_table)
            (PStr "key") (PStr "s3cret") start)
     = Ret (false, "Bir hata oluştu: connection refused").
Proof. repeat split. Qed.

(** C9 with no client and with an exchange object, after different lines
    were printed. *)
Lemma get_historical_data_ignores_client_witness :
  fst (get_historical_data
         (stub_libs (Ret flaky) (ok_response one_kline) (Ret (candles (PStr "110"))))
         None (PStr "BTC/USDT") (PStr "1h") (PInt 100) start) =
  fst (get_historical_data
         (stub_libs (Ret flaky) (ok_response one_kline) (Ret (candles (PStr "110"))))
         (Some flaky) (PStr "BTC/USDT") (PStr "1h") (PInt 100)
         (MkState 0 ["Market order created: {...}"])).
Proof.
  exact (proj1 (get_historical_data_ignores_client
                  (stub_libs (Ret flaky) (ok_response one_kline)
                     (Ret (candles (PStr "110"))))
                  None (Some flaky) (PStr "BTC/USDT") (PStr "1h") (PInt 100)
                  start (MkState 0 ["Market order created: {...}"]) eq_refl)).
Defined.

(** * Further properties *)

(** Splits on the innermost scrutinee first. *)
Ltac cases :=
  repeat match goal with
    | |- context [match ?x with _ => _ end] =>
        lazymatch x with
        | context [match _ with _ => _ end] => fail
        | _ => destruct x eqn:?
        end
    end.

Lemma truthy_ne_zero (v : pyval) : truthy v = true -> ne_zero v = true.
Proof. destruct v; simpl; congruence. Qed.

Section OrderCalls.

Context {World : Type} (L : Libs World).

(** A protective order makes one call when a price is given and none
    otherwise, whether the call returns or raises. *)
Lemma protective_order_calls (c : Client World)
  (symbol side amount price : pyval) (type created failed : string)
  (st : state (World * list lib_call)) :
  exists st',
    protective_order (traced_libs L) (traced_client c) symbol side amount
      price type created failed st = (Ret tt, st')
    /\ calls st' =
       (calls st ++
        (if truthy price
         then [Call_create_order symbol (PStr type) side amount PNone
                 (stop_params price)]
         else []))%list.
Proof.
  unfold protective_order, calls. destruct (truthy price).
  - run. cbn [create_order traced_client]. unfold logged.
    destruct (create_order c symbol (PStr type) side amount PNone
                (stop_params price) (fst (st_world st))) as [[o | e] w];
      [ | rewrite is_Exception_all ]; eexists; split; reflexivity.
  - exists st. split; [ reflexivity | ]. now rewrite app_nil_r.
Qed.

(** X1. When the primary order is placed, [create_market_order] makes
    these calls and no other, in this order: the market order; when a
    take-profit price is given and is not zero, one TAKE_PROFIT_MARKET
    order; when a stop-loss price is given and is not zero, one
    STOP_MARKET order.  Both protective orders are on the opposite side,
    for the same amount, reduce-only, with the price as stop price, and
    the stop-loss order is asked for whether or not the take-profit order
    was accepted. *)
Theorem create_market_order_calls (c : Client World)
  (symbol side amount tp sl : pyval) (w : World) (log : list lib_call)
  (out : list string) (order : pyval) (w1 : World) :
  client_create_market_order c symbol side amount w = (Ret order, w1) ->
  calls (snd (create_market_order (traced_libs L) (Some (traced_client c))
                symbol side amount tp sl (logging w log out))) =
  (log ++ Call_create_market_order symbol side amount
       :: protective_calls symbol side amount tp sl)%list.
Proof.
  intros Hp. unfold create_market_order, logging. run.
  cbn [client_create_market_order traced_client]. unfold logged.
  cbn [st_world fst snd]. rewrite Hp. cbn [st_world st_stdout].
  match goal with
  | |- context [protective_order ?l ?cl ?a ?b ?d ?p ?t ?m ?f ?s] =>
      destruct (protective_order_calls c a b d p t m f s) as (st2 & -> & H2)
  end.
  match goal with
  | |- context [protective_order ?l ?cl ?a ?b ?d ?p ?t ?m ?f ?s] =>
      destruct (protective_order_calls c a b d p t m f s) as (st3 & -> & H3)
  end.
  cbn [snd]. rewrite H3, H2. unfold calls, protective_calls.
  cbn [st_world snd]. rewrite <- !app_assoc. reflexivity.
Qed.

(** X2. When the primary order fails, [create_market_order] asks for no
    protective order and prints nothing: the failed market order is the
    only call, and the result is None with the text of the exception.
    Without a client it makes no call at all. *)
Theorem create_market_order_failed_calls (c : Client World)
  (symbol side amount tp sl : pyval) (w : World) (log : list lib_call)
  (out : list string) :
  (forall e w1,
      client_create_market_order c symbol side amount w = (Raise e, w1) ->
      create_market_order (traced_libs L) (Some (traced_client c))
        symbol side amount tp sl (logging w log out) =
      (Ret (PNone, "Emir oluşturulurken hata: " ++ exn_msg e),
       logging w1 (log ++ [Call_create_market_order symbol side amount]) out))
  /\ create_market_order (traced_libs L) None symbol side amount tp sl
       (logging w log out) =
     (Ret (PNone, "Geçersiz istemci."), logging w log out).
Proof.
  split; [ | reflexivity ].
  intros e w1 Hp. unfold create_market_order, logging. run.
  cbn [client_create_market_order traced_client]. unfold logged.
  cbn [st_world fst snd]. rewrite Hp, is_Exception_all. reflexivity.
Qed.

End OrderCalls.

(** X3. The side of the protective orders is 'sell' for the side 'buy'
    and 'buy' for every other value; taking the opposite twice gives the
    side back for 'buy' and 'sell' only. *)
Theorem opposite_side (side : pyval) :
  (opposite side = PStr "sell" <-> side = PStr "buy")
  /\ (side <> PStr "buy" -> opposite side = PStr "buy")
  /\ (opposite (opposite side) = side <->
      side = PStr "buy" \/ side = PStr "sell").
Proof.
  unfold opposite, eq_str.
  destruct side as [ | | | | s | | | ];
    try (repeat split; try discriminate; try reflexivity;
         intros H; try discriminate H; destruct H; discriminate).
  destruct (String.eqb s "buy") eqn:E.
  - apply String.eqb_eq in E. subst s. cbn.
    split; [ | split ]; [ tauto | congruence | tauto ].
  - assert (Hs : s <> "buy") by (intros ->; discriminate E).
    cbn. split; [ | split ].
    + split; [ discriminate | congruence ].
    + reflexivity.
    + split.
      * intros H. right. congruence.
      * intros [H | H]; congruence.
Qed.

Section MorePositions.

Context {World : Type}.

(** X4. The test [position['contracts'] != 0] of [get_position] never
    decides: the first descriptor is returned exactly when its contract
    count is true in a condition.  A negative count, a NaN and a
    non-empty string are returned; zero, None, the empty string and a
    missing count are not. *)
Theorem get_position_truthy (c : Client World) (symbol : pyval)
  (st : state World) first rest w :
  fetch_positions c (PList [symbol]) (st_world st) =
    (Ret (PList (first :: rest)), w) ->
  (forall v, truthy v = true -> ne_zero v = true)
  /\ fst (get_position (Some c) symbol st) =
     Ret (match contracts_of first with
          | Some v => if truthy v then first else PNone
          | None => PNone
          end).
Proof.
  intros Hf. split; [ exact truthy_ne_zero | ].
  rewrite (get_position_first c symbol st first rest w Hf).
  destruct (contracts_of first) as [v | ]; [ | reflexivity ].
  destruct (truthy v) eqn:Hv; [ | reflexivity ].
  rewrite (truthy_ne_zero v Hv). reflexivity.
Qed.

(** X5. A value other than None that [get_futures_balance] returns is
    read from the balance fetched: it is the USDT entry of the map under
    'total', or the integer 0 when that map has no such entry; and nothing
    was printed. *)
Theorem get_futures_balance_sound (c : Client World) (st : state World)
  (r : pyval) (st' : state World) :
  get_futures_balance (Some c) st = (Ret r, st') ->
  r <> PNone ->
  exists balance total,
    fetch_balance c (st_world st) = (Ret balance, st_world st')
    /\ getitem balance "total" = Ret (PDict total)
    /\ r = match assoc "USDT" total with Some v => v | None => PInt 0 end
    /\ st_stdout st' = st_stdout st.
Proof.
  unfold get_futures_balance. run.
  destruct (fetch_balance c (st_world st)) as [[balance | e] w] eqn:Hf.
  - destruct (getitem balance "total") as [total | e] eqn:Ht.
    + destruct total as [ | | | | | | d | ];
        cbn [dict_get]; try rewrite is_Exception_all;
        try (intros H Hr; injection H as <- _; congruence).
      destruct (assoc "USDT" d) as [v | ] eqn:Hu;
        intros H Hr; injection H as <- <-; exists balance, d;
        rewrite Hu; auto.
    + rewrite is_Exception_all. intros H Hr; injection H as <- _; congruence.
  - rewrite is_Exception_all. intros H Hr; injection H as <- _; congruence.
Qed.

(** X6. When reading the USDT total off the balance fetched raises,
    [get_futures_balance] returns None and prints one line: the prefix
    followed by the text of that very error.  This is what happens when
    the balance has no 'total' key, where the text is the key in quotes,
    and when it has under 'total' something that is no dictionary, where
    the text names the type that has no [get]. *)
Theorem get_futures_balance_malformed (c : Client World) (st : state World)
  (balance : pyval) (w : World) :
  fetch_balance c (st_world st) = (Ret balance, w) ->
  (forall e,
      obind (getitem balance "total")
            (fun total => dict_get total "USDT" (PInt 0)) = Raise e ->
      get_futures_balance (Some c) st =
      (Ret PNone,
       MkState w (st_stdout st ++ ["Bakiye alınırken hata: " ++ exn_msg e])))
  /\ ((forall total, getitem balance "total" <> Ret (PDict total)) ->
      exists e,
        obind (getitem balance "total")
              (fun total => dict_get total "USDT" (PInt 0)) = Raise e)
  /\ (forall d, balance = PDict d -> assoc "total" d = None ->
      get_futures_balance (Some c) st =
      (Ret PNone,
       MkState w (st_stdout st ++ ["Bakiye alınırken hata: 'total'"])))
  /\ (forall d total, balance = PDict d -> assoc "total" d = Some total ->
      (forall m, total <> PDict m) ->
      get_futures_balance (Some c) st =
      (Ret PNone,
       MkState w (st_stdout st ++
                  ["Bakiye alınırken hata: '" ++ type_name total
                   ++ "' object has no attribute 'get'"]))).
Proof.
  intros Hf.
  assert (Hraise : forall e,
      obind (getitem balance "total")
            (fun total => dict_get total "USDT" (PInt 0)) = Raise e ->
      get_futures_balance (Some c) st =
      (Ret PNone,
       MkState w (st_stdout st ++ ["Bakiye alınırken hata: " ++ exn_msg e]))).
  { intros e He. unfold get_futures_balance. run. rewrite Hf.
    unfold obind in He.
    destruct (getitem balance "total") as [total | e1].
    - rewrite He, is_Exception_all. reflexivity.
    - injection He as ->. rewrite is_Exception_all. reflexivity. }
  split; [ exact Hraise | split; [ | split ] ].
  - intros Hno.
    destruct (getitem balance "total") as [total | e] eqn:Ht; cbn [obind];
      [ | eauto ].
    destruct total as [ | | | | | | d | ]; cbn [dict_get]; eauto.
    elim (Hno d). reflexivity.
  - intros d -> Hd. apply (Hraise (MkExn KeyError "'total'")).
    cbn [getitem]. rewrite Hd. reflexivity.
  - intros d total -> Hd Hnd.
    apply (Hraise (no_attribute total "get")).
    cbn [getitem]. rewrite Hd. cbn [obind].
    destruct total; try reflexivity. elim (Hnd d0). reflexivity.
Qed.

(** X7. The functions that read from the exchange make one call each and
    place no order: [get_futures_balance] fetches the balance once,
    [get_position] fetches the positions of the one symbol once, whatever
    comes back; without a client neither makes a call. *)
Theorem read_only_calls (c : Client World) (symbol : pyval) (w : World)
  (log : list lib_call) (out : list string) :
  calls (snd (get_futures_balance (Some (traced_client c)) (logging w log out)))
  = (log ++ [Call_fetch_balance])%list
  /\ calls (snd (get_position (Some (traced_client c)) symbol
                   (logging w log out)))
     = (log ++ [Call_fetch_positions (PList [symbol])])%list
  /\ get_futures_balance None (logging w log out)
     = (Ret PNone, logging w log out)
  /\ get_position None symbol (logging w log out)
     = (Ret PNone, logging w log out).
Proof.
  split; [ | split; [ | split; reflexivity ] ].
  - unfold get_futures_balance, logging, calls. run.
    cbn [fetch_balance traced_client]. unfold logged. cbn [st_world fst snd].
    destruct (fetch_balance c w) as [[balance | e] w1];
      cbn [st_world st_stdout]; cases; reflexivity.
  - unfold get_position, logging, calls. run.
    cbn [fetch_positions traced_client]. unfold logged. cbn [st_world fst snd].
    destruct (fetch_positions c (PList [symbol]) w) as [[positions | e] w1];
      cbn [st_world st_stdout]; cases; reflexivity.
Qed.

End MorePositions.

Section ConnectionCalls.

Context {World : Type} (L : Libs World).

(** X8. [test_api_connection] builds at most one exchange object, with
    the two credentials and the futures option, and fetches the balance
    at most once: with a credential missing it makes no call; when the
    construction raises it stops after it; otherwise it fetches the
    balance once.  It never places an order. *)
Theorem test_api_connection_calls (k s : pyval) (w : World)
  (log : list lib_call) (out : list string) :
  calls (snd (test_api_connection (traced_libs L) k s (logging w log out))) =
  (log ++
   if truthy k && truthy s
   then Call_binance (client_config k s)
        :: match fst (ccxt_binance L (client_config k s) w) with
           | Ret _ => [Call_fetch_balance]
           | Raise _ => []
           end
   else [])%list.
Proof.
  unfold test_api_connection, get_binance_client, logging, calls.
  destruct (truthy k); [ destruct (truthy s) | ]; cbn [negb orb andb];
    try (run; cbn [st_world snd]; now rewrite app_nil_r).
  run. cbn [ccxt_binance traced_libs st_world fst snd].
  destruct (ccxt_binance L (client_config k s) w) as [[c | e] w1];
    cbn [fst st_world st_stdout].
  - cbn [fetch_balance traced_client]. unfold logged. cbn [fst snd].
    destruct (fetch_balance c w1) as [[b | e] w2]; cbn [st_world snd].
    + now rewrite <- app_assoc.
    + cases; cbn [st_world snd]; now rewrite <- app_assoc.
  - rewrite is_Exception_all. reflexivity.
Qed.

End ConnectionCalls.

Lemma remove_char_app (c : ascii) (a b : string) :
  remove_char c (a ++ b) = remove_char c a ++ remove_char c b.
Proof.
  induction a as [ | x a IH]; [ reflexivity | ].
  simpl. destruct (Ascii.eqb x c); simpl; congruence.
Qed.

Lemma remove_char_no_slash (s : string) :
  no_slash s = true -> remove_char "/" s = s.
Proof.
  induction s as [ | x s IH]; [ reflexivity | ].
  simpl. destruct (Ascii.eqb x "/"); simpl; [ discriminate | ].
  intros H. now rewrite IH.
Qed.

Lemma get_historical_data_some {World : Type} (L : Libs World)
  (client : option (Client World)) (symbol timeframe limit : pyval)
  (st : state World) (df : DataFrame) :
  fst (get_historical_data L client symbol timeframe limit st) = Ret (Some df) ->
  exists st', historical_body L symbol timeframe limit st = (Ret (Some df), st').
Proof.
  unfold get_historical_data. run.
  destruct (historical_body L symbol timeframe limit st)
    as [[[d | ] | e] st']; cbn [fst].
  - intros H. injection H as ->. eauto.
  - discriminate.
  - destruct (is_RequestException e); [ discriminate | ].
    rewrite is_Exception_all. discriminate.
Qed.

Lemma column_replace_other (n m : string) (c : list pyval)
  (cols : list (string * list pyval)) :
  String.eqb n m = false ->
  column n (replace_column m c cols) = column n cols.
Proof.
  intros Hn. induction cols as [ | [k d] cols IH]; simpl.
  - now rewrite Hn.
  - destruct (String.eqb m k) eqn:E; simpl.
    + apply String.eqb_eq in E. subst k. now rewrite Hn.
    + now rewrite IH.
Qed.

Lemma column_remove_other (n m : string) (cols : list (string * list pyval)) :
  String.eqb n m = false ->
  column n (remove_column m cols) = column n cols.
Proof.
  intros Hn. induction cols as [ | [k d] cols IH]; simpl; [ reflexivity | ].
  destruct (String.eqb m k) eqn:E; simpl.
  - apply String.eqb_eq in E. subst k. now rewrite Hn.
  - now rewrite IH.
Qed.

Section MoreHistory.

Context {World : Type} (L : Libs World).

(** X9. [get_historical_data] treats a symbol with and without the
    separator alike: two symbols that differ in slashes only give the
    same result and leave the same state. *)
Theorem get_historical_data_slash (c1 c2 : option (Client World))
  (s1 s2 : string) (timeframe limit : pyval) (st : state World) :
  remove_char "/" s1 = remove_char "/" s2 ->
  get_historical_data L c1 (PStr s1) timeframe limit st =
  get_historical_data L c2 (PStr s2) timeframe limit st.
Proof.
  intros H. unfold get_historical_data, historical_body. run.
  cbn [str_replace_slash]. rewrite H. reflexivity.
Qed.

(** X10. A symbol as [get_24h_ticker] writes it asks for the candles of
    the symbol it was made from: the separator the lambda puts in is
    taken out again by [get_historical_data], and an upstream symbol,
    which has no slash, is sent as it came. *)
Theorem ticker_symbol_round_trip (s : string) :
  exists s',
    format_symbol (PStr s) = Ret (PStr s')
    /\ remove_char "/" s' = remove_char "/" s
    /\ (no_slash s = true -> remove_char "/" s' = s)
    /\ (forall (c1 c2 : option (Client World)) timeframe limit st,
          get_historical_data L c1 (PStr s') timeframe limit st =
          get_historical_data L c2 (PStr s) timeframe limit st).
Proof.
  assert (Hsame : remove_char "/"
            (if endswith s "USDT"
             then slice_to_m4 s ++ "/" ++ slice_from_m4 s else s)
          = remove_char "/" s).
  { destruct (endswith s "USDT") eqn:He; [ | reflexivity ].
    destruct (endswith_USDT_split s He) as [Hs ->].
    transitivity (remove_char "/" (slice_to_m4 s ++ "USDT"));
      [ | now rewrite <- Hs ].
    rewrite !remove_char_app. reflexivity. }
  eexists. split; [ reflexivity | ]. split; [ exact Hsame | ]. split.
  - intros Hn. rewrite Hsame. now apply remove_char_no_slash.
  - intros c1 c2 timeframe limit st.
    unfold get_historical_data, historical_body. run.
    cbn [str_replace_slash]. rewrite Hsame. reflexivity.
Qed.

(** X11. Each of the two functions on the public end points sends one
    request and never a second one, whatever the answer: candles are
    asked for once, with the symbol without slashes, the interval, the
    limit and a timeout of ten seconds, and not at all when the symbol is
    no string; the tickers are asked for once, without parameters. *)
Theorem one_request_each (client : option (Client (World * list lib_call)))
  (symbol timeframe limit : pyval) (w : World) (log : list lib_call)
  (out : list string) :
  calls (snd (get_historical_data (traced_libs L) client symbol timeframe
                limit (logging w log out))) =
  (log ++ match symbol with
          | PStr s => [klines_call s timeframe limit]
          | _ => []
          end)%list
  /\ calls (snd (get_24h_ticker (traced_libs L) (logging w log out))) =
     (log ++ [ticker_call])%list.
Proof.
  unfold calls, logging, klines_call, ticker_call. split.
  - unfold get_historical_data, historical_body. run.
    destruct symbol; cbn [str_replace_slash];
      try (rewrite is_Exception_all;
           destruct (is_RequestException _);
           cbn [st_world snd]; now rewrite app_nil_r).
    cbn [requests_get traced_libs]. unfold logged. cbn [st_world fst snd].
    destruct (requests_get L _ _ 10 w) as [[r | e] w1];
      cbn [st_world st_stdout]; cases; reflexivity.
  - unfold get_24h_ticker, ticker_body. run.
    cbn [requests_get traced_libs]. unfold logged. cbn [st_world fst snd].
    destruct (requests_get L _ _ 10 w) as [[r | e] w1];
      cbn [st_world st_stdout]; cases; reflexivity.
Qed.

(** The [try] blocks of the two functions print nothing, and what they
    return is a table. *)
Lemma historical_body_quiet (symbol timeframe limit : pyval) (st : state World) :
  st_stdout (snd (historical_body L symbol timeframe limit st)) = st_stdout st
  /\ (forall r, fst (historical_body L symbol timeframe limit st) = Ret r ->
      exists df, r = Some df).
Proof.
  unfold historical_body. run.
  cases; cbn [fst snd st_stdout]; split; try reflexivity;
    intros r' Hr; try discriminate Hr; injection Hr as <-; eauto.
Qed.

Lemma ticker_body_quiet (st : state World) :
  st_stdout (snd (ticker_body L st)) = st_stdout st
  /\ (forall r, fst (ticker_body L st) = Ret r -> exists df, r = Some df).
Proof.
  unfold ticker_body. run.
  cases; cbn [fst snd st_stdout]; split; try reflexivity;
    intros r' Hr; try discriminate Hr; injection Hr as <-; eauto.
Qed.

(** X12. On the two public end points a None is never silent and a table
    never comes with a diagnostic.  When the [try] block of
    [get_historical_data] or of [get_24h_ticker] raises an exception, the
    function returns None and has printed exactly one line: the
    request-error prefix when that exception is a RequestException and the
    processing-error prefix otherwise, followed by the text of that
    exception.  When the block returns, the function returns its table
    and has printed nothing.  In particular an exception raised by the
    request itself is the one whose text is printed. *)
Theorem failure_is_printed (client : option (Client World))
  (symbol timeframe limit : pyval) (st : state World) :
  match historical_body L symbol timeframe limit st with
  | (Ret r, st') =>
      (exists df, r = Some df)
      /\ get_historical_data L client symbol timeframe limit st
         = (Ret r, MkState (st_world st') (st_stdout st))
  | (Raise e, st') =>
      get_historical_data L client symbol timeframe limit st
      = (Ret None,
         MkState (st_world st')
           (st_stdout st ++
            [(if is_RequestException e
              then "Geçmiş veri alınırken API hatası: "
              else "Geçmiş veri işlenirken hata: ") ++ exn_msg e]))
  end
  /\ match ticker_body L st with
     | (Ret r, st') =>
         (exists df, r = Some df)
         /\ get_24h_ticker L st = (Ret r, MkState (st_world st') (st_stdout st))
     | (Raise e, st') =>
         get_24h_ticker L st
         = (Ret None,
            MkState (st_world st')
              (st_stdout st ++
               [(if is_RequestException e
                 then "Binance API'sine bağlanırken hata (ticker): "
                 else "24 saatlik ticker verisi işlenirken hata: ")
                ++ exn_msg e]))
     end
  /\ (forall s e w,
        symbol = PStr s ->
        klines_request L s timeframe limit (st_world st) = (Raise e, w) ->
        get_historical_data L client symbol timeframe limit st
        = (Ret None, MkState w (st_stdout st ++ [history_diagnostic e])))
  /\ (forall e w,
        ticker_request L (st_world st) = (Raise e, w) ->
        get_24h_ticker L st
        = (Ret None, MkState w (st_stdout st ++ [ticker_diagnostic e])))
  /\ (forall s r e w,
        symbol = PStr s ->
        klines_request L s timeframe limit (st_world st) = (Ret r, w) ->
        raise_for_status r = Raise e
        \/ (raise_for_status r = Ret tt /\ json r = Raise e) ->
        get_historical_data L client symbol timeframe limit st
        = (Ret None, MkState w (st_stdout st ++ [history_diagnostic e])))
  /\ (forall r e w,
        ticker_request L (st_world st) = (Ret r, w) ->
        raise_for_status r = Raise e
        \/ (raise_for_status r = Ret tt /\ json r = Raise e) ->
        get_24h_ticker L st
        = (Ret None, MkState w (st_stdout st ++ [ticker_diagnostic e]))).
Proof.
  split; [ | split; [ | split; [ | split; [ | split ] ] ] ].
  - destruct (historical_body_quiet symbol timeframe limit st) as [Hq Hs].
    unfold get_historical_data. run.
    destruct (historical_body L symbol timeframe limit st)
      as [[r | e] [w' out']]; cbn [fst snd st_stdout st_world] in *; subst out'.
    + split; [ now apply Hs | reflexivity ].
    + destruct (is_RequestException e); [ reflexivity | ].
      rewrite is_Exception_all. reflexivity.
  - destruct (ticker_body_quiet st) as [Hq Hs].
    unfold get_24h_ticker. run.
    destruct (ticker_body L st)
      as [[r | e] [w' out']]; cbn [fst snd st_stdout st_world] in *; subst out'.
    + split; [ now apply Hs | reflexivity ].
    + destruct (is_RequestException e); [ reflexivity | ].
      rewrite is_Exception_all. reflexivity.
  - intros s e w -> Hq. unfold klines_request in Hq.
    unfold get_historical_data, historical_body, history_diagnostic. run.
    cbn [str_replace_slash]. rewrite Hq.
    destruct (is_RequestException e); [ reflexivity | ].
    rewrite is_Exception_all. reflexivity.
  - intros e w Hq. unfold ticker_request in Hq.
    unfold get_24h_ticker, ticker_body, ticker_diagnostic. run. rewrite Hq.
    destruct (is_RequestException e); [ reflexivity | ].
    rewrite is_Exception_all. reflexivity.
  - intros s r e w -> Hq H. unfold klines_request in Hq.
    unfold get_historical_data, historical_body, history_diagnostic. run.
    cbn [str_replace_slash]. rewrite Hq.
    destruct H as [-> | [-> ->]];
      (destruct (is_RequestException e); [ reflexivity | ];
       rewrite is_Exception_all; reflexivity).
  - intros r e w Hq H. unfold ticker_request in Hq.
    unfold get_24h_ticker, ticker_body, ticker_diagnostic. run. rewrite Hq.
    destruct H as [-> | [-> ->]];
      (destruct (is_RequestException e); [ reflexivity | ];
       rewrite is_Exception_all; reflexivity).
Qed.

End MoreHistory.

Lemma column_replace_same (m : string) (c : list pyval)
  (cols : list (string * list pyval)) :
  column m (replace_column m c cols) = Some c.
Proof.
  induction cols as [ | [k d] cols IH]; simpl.
  - now rewrite String.eqb_refl.
  - destruct (String.eqb m k) eqn:E; simpl; rewrite ?E; auto.
Qed.

(** Splits a hypothesis on its innermost scrutinee and names the case. *)
Ltac step H E :=
  match type of H with
  | context [match ?x with _ => _ end] =>
      lazymatch x with
      | context [match _ with _ => _ end] => fail
      | _ => destruct x eqn:E; try discriminate H
      end
  end.

Section HistoryTable.

Context {World : Type} (L : Libs World).

(** X13. When [get_historical_data] returns a table, the symbol is a
    string, the request for its candles was answered without an error
    status, and the body of that answer was decoded to some document.
    If the document is false in a condition the table is the empty
    table.  Otherwise the table has exactly the columns open, high, low,
    close and volume, in this order: each is the column of that name of
    the table built from that document, converted cell by cell, and the
    index is the timestamp column of that table converted to dates.  The
    other seven columns are not in it. *)
Theorem get_historical_data_table (client : option (Client World))
  (symbol timeframe limit : pyval) (st : state World) (df : DataFrame) :
  fst (get_historical_data L client symbol timeframe limit st) = Ret (Some df) ->
  exists s r w data,
    symbol = PStr s
    /\ klines_request L s timeframe limit (st_world st) = (Ret r, w)
    /\ raise_for_status r = Ret tt
    /\ json r = Ret data
    /\ ((truthy data = false /\ df = Pandas.empty)
        \/ (truthy data = true
            /\ exists raw ts,
                 pd_DataFrame L data kline_columns = Ret raw
                 /\ get_column "timestamp" raw = Ret ts
                 /\ pd_to_datetime L ts = Ret (df_index df)
                 /\ column_names df = price_columns
                 /\ forall n, In n price_columns ->
                      exists c0, column n (df_columns raw) = Some c0
                                 /\ apply (float_of L) c0 = Ret (values n df))).
Proof.
  intros Hr.
  destruct (get_historical_data_some L client symbol timeframe limit st df Hr)
    as (st' & Hb).
  unfold historical_body in Hb. revert Hb. run.
  destruct symbol as [ | | | | s | | | ]; cbn [str_replace_slash];
    try discriminate.
  intros Hb.
  step Hb Hreq. step Hb Ho. step Hb Hstatus. step Hb Hjson.
  match type of Hstatus with _ = Ret ?u => destruct u end.
  match type of Hreq with _ = (Ret ?r, ?w) =>
    match type of Hjson with _ = Ret ?data =>
      exists s, r, w, data; rename data into doc
    end
  end.
  unfold klines_request.
  repeat (split; [ first [ assumption | reflexivity ] | ]).
  destruct (truthy doc) eqn:Hdata; cbv beta iota in Hb.
  2: { left. injection Hb as <- _. auto. }
  right. split; [ reflexivity | ].
  destruct (pd_DataFrame L doc kline_columns) as [raw | ] eqn:Hraw;
    [ | discriminate Hb ].
  destruct (get_column "timestamp" raw) as [ts | ] eqn:Hts;
    [ | discriminate Hb ].
  destruct (pd_to_datetime L ts) as [dates | ] eqn:Hdate;
    [ | discriminate Hb ].
  exists raw, ts.
  unfold set_index, set_column in Hb. cbn [df_columns df_index] in Hb.
  rewrite column_replace_same in Hb.
  unfold select, price_columns in *.
  cbn [select_columns df_columns df_index] in Hb.
  rewrite !column_remove_other, !column_replace_other in Hb by reflexivity.
  destruct (column "open" (df_columns raw)) as [c_open | ] eqn:Hopen;
    [ | discriminate Hb ].
  destruct (column "high" (df_columns raw)) as [c_high | ] eqn:Hhigh;
    [ | discriminate Hb ].
  destruct (column "low" (df_columns raw)) as [c_low | ] eqn:Hlow;
    [ | discriminate Hb ].
  destruct (column "close" (df_columns raw)) as [c_close | ] eqn:Hclose;
    [ | discriminate Hb ].
  destruct (column "volume" (df_columns raw)) as [c_volume | ] eqn:Hvolume;
    [ | discriminate Hb ].
  unfold astype in Hb. cbn [obind apply_columns df_columns df_index] in Hb.
  destruct (apply (float_of L) c_open) as [f_open | ] eqn:Fopen;
    [ | discriminate Hb ].
  destruct (apply (float_of L) c_high) as [f_high | ] eqn:Fhigh;
    [ | discriminate Hb ].
  destruct (apply (float_of L) c_low) as [f_low | ] eqn:Flow;
    [ | discriminate Hb ].
  destruct (apply (float_of L) c_close) as [f_close | ] eqn:Fclose;
    [ | discriminate Hb ].
  destruct (apply (float_of L) c_volume) as [f_volume | ] eqn:Fvolume;
    [ | discriminate Hb ].
  cbn [obind] in Hb. injection Hb as <- _.
  repeat (split; [ first [ assumption | reflexivity ] | ]).
  intros n [<- | [<- | [<- | [<- | [<- | []]]]]]; eexists; split;
    first [ eassumption | reflexivity ].
Qed.

End HistoryTable.

(** ** The keys of the records *)

Lemma mem_app (n : string) (a b : list string) :
  mem n (a ++ b) = mem n a || mem n b.
Proof. unfold mem. apply existsb_app. Qed.

Lemma mem_add_keys (n : string) (d : list (string * pyval)) :
  forall seen, mem n (add_keys seen d) = mem n seen || has_key n d.
Proof.
  unfold has_key.
  induction d as [ | [k v] d IH]; intros seen; simpl.
  - now rewrite orb_false_r.
  - rewrite IH. destruct (String.eqb n k) eqn:E.
    + apply String.eqb_eq in E. subst k.
      destruct (mem n seen) eqn:Hm; [ now rewrite Hm | ].
      rewrite mem_app, Hm. simpl. now rewrite String.eqb_refl.
    + destruct (mem k seen); [ reflexivity | ].
      rewrite mem_app. simpl. rewrite E. now rewrite !orb_false_r.
Qed.

Lemma mem_union_keys (n : string) (recs : list (list (string * pyval))) :
  forall seen,
    mem n (union_keys seen recs) = mem n seen || existsb (has_key n) recs.
Proof.
  induction recs as [ | d recs IH]; intros seen; simpl.
  - now rewrite orb_false_r.
  - rewrite IH, mem_add_keys. now rewrite orb_assoc.
Qed.

Lemma usdt_tickers_wellformed (ts : list pyval) :
  (forall t, In t ts -> ticker_symbol t <> None) ->
  usdt_tickers ts = Ret (filter quoted_in_usdt ts).
Proof.
  induction ts as [ | t ts IH]; intros H; [ reflexivity | ].
  assert (Ht := H t (or_introl eq_refl)).
  assert (IH' := IH (fun u Hu => H u (or_intror Hu))).
  cbn [usdt_tickers filter]. rewrite IH'.
  unfold quoted_in_usdt at 2. unfold ticker_symbol in *.
  destruct t as [ | | | | | | d | ]; try congruence.
  cbn [getitem]. destruct (assoc "symbol" d) as [sym | ]; [ | congruence ].
  destruct sym as [ | | | | s | | | ]; try congruence.
  reflexivity.
Qed.

Lemma usdt_tickers_malformed (ts : list pyval) (t : pyval) :
  In t ts -> ticker_symbol t = None ->
  exists e, usdt_tickers ts = Raise e.
Proof.
  induction ts as [ | u ts IH]; intros Hin Ht; [ contradiction | ].
  cbn [usdt_tickers].
  destruct (getitem u "symbol") as [sym | e] eqn:Hg; cbn [obind]; [ | eauto ].
  destruct (str_endswith sym "USDT") as [keep | e] eqn:He; cbn [obind];
    [ | eauto ].
  destruct Hin as [-> | Hin].
  - exfalso. unfold ticker_symbol in Ht.
    destruct t as [ | | | | | | d | ]; try discriminate Hg.
    cbn [getitem] in Hg. destruct (assoc "symbol" d) as [x | ];
      [ | discriminate Hg ].
    injection Hg as ->.
    destruct sym as [ | | | | s | | | ]; discriminate.
  - destruct (IH Hin Ht) as (e & ->). cbn [obind]. eauto.
Qed.

Lemma drop_where_length {A B} (m : list bool) :
  forall (l : list A) (l' : list B),
    length l = length m -> length l' = length m ->
    length (drop_where m l) = length (drop_where m l').
Proof.
  induction m as [ | b m IH]; intros l l' Hl Hl'.
  - destruct l; destruct l'; reflexivity || discriminate.
  - destruct l as [ | x l]; [ discriminate | ].
    destruct l' as [ | y l']; [ discriminate | ].
    simpl in *. destruct b; simpl; auto.
Qed.

Lemma existsb_map_compose {A B} (p : B -> bool) (g : A -> B) (l : list A) :
  existsb p (map g l) = existsb (fun x => p (g x)) l.
Proof. induction l as [ | x l IH]; simpl; congruence. Qed.

Section TickerTable.

Context {World : Type} (L : Libs World).

(** The steps of [get_24h_ticker] after the entries quoted in USDT were
    picked: they give the table of the complete entries, or raise when one
    of the three numeric fields is a key of no entry. *)
Lemma ticker_pipeline_result (usdt : list pyval) :
  usdt <> [] ->
  (forall t, In t usdt ->
     exists d s, t = PDict d /\ assoc "symbol" d = Some (PStr s)
                 /\ endswith s "USDT" = true) ->
  exists e,
    obind (from_records usdt) (fun df =>
    obind (select ticker_columns df) (fun df =>
    let df := rename ticker_names df in
    obind (coerce_column L "Değişim (%)" df) (fun df =>
    obind (coerce_column L "Son Fiyat" df) (fun df =>
    obind (coerce_column L "Hacim (USDT)" df) (fun df =>
    obind (get_column "Sembol" df) (fun sembol =>
    obind (apply format_symbol sembol) (fun sembol =>
    let df := set_column "Sembol" sembol df in
    Ret (dropna df))))))))
    = if fields_present usdt then Ret (ticker_table_of L usdt) else Raise e.
Proof.
  intros Hne Hall.
  unfold from_records. rewrite records_of_dicts
    by (intros t Ht; destruct (Hall t Ht) as (d & _ & -> & _); eauto).
  cbn [obind]. unfold select, ticker_columns. cbn [df_columns select_columns].
  rewrite !column_of_keys, !mem_union_keys. cbn [mem existsb orb].
  unfold fields_present. cbn [forallb]. rewrite !existsb_map_compose.
  set (recs := map fields_of usdt).
  assert (Hsym : existsb (fun t => has_key "symbol" (fields_of t)) usdt = true).
  { destruct usdt as [ | t us]; [ congruence | ].
    destruct (Hall t (or_introl eq_refl)) as (d & x & -> & Hx & _).
    cbn [existsb fields_of]. unfold has_key. now rewrite Hx. }
  rewrite Hsym.
  destruct (existsb (fun t => has_key "priceChangePercent" (fields_of t)) usdt);
    [ | eexists; reflexivity ].
  destruct (existsb (fun t => has_key "lastPrice" (fields_of t)) usdt);
    [ | eexists; reflexivity ].
  destruct (existsb (fun t => has_key "quoteVolume" (fields_of t)) usdt);
    [ | eexists; reflexivity ].
  exists (MkExn KeyError "").
  cbn -[cell recs apply dropna].
  unfold recs at 1. rewrite (apply_format_symbol usdt Hall).
  cbn -[cell recs dropna].
  assert (Hnum : forall n, map (to_numeric L) (map (cell n) recs)
                           = map (numeric L n) usdt)
    by (intros n; unfold recs; rewrite !map_map; reflexivity).
  rewrite !Hnum.
  unfold dropna, na_mask, ticker_table_of.
  cbn -[cell recs numeric separated range_index complete].
  replace (Datatypes.length recs) with (Datatypes.length usdt)
    by (unfold recs; now rewrite length_map).
  rewrite all_false_mask, !or_mask_map, !drop_where_map.
  assert (Hmask : forall t, In t usdt ->
            ((((false || isna (separated t))
               || isna (numeric L "priceChangePercent" t))
              || isna (numeric L "lastPrice" t))
             || isna (numeric L "quoteVolume" t)) = negb (complete L t)).
  { intros t Ht. destruct (Hall t Ht) as (d & x & -> & Hx & _).
    unfold complete, separated, ticker_symbol. rewrite Hx. cbn [isna orb].
    destruct (isna (numeric L "priceChangePercent" (PDict d)));
      destruct (isna (numeric L "lastPrice" (PDict d)));
      destruct (isna (numeric L "quoteVolume" (PDict d))); reflexivity. }
  rewrite (map_ext_in _ _ usdt Hmask).
  assert (Hkeep : filter
            (fun t => negb ((((false || isna (separated t))
                              || isna (numeric L "priceChangePercent" t))
                             || isna (numeric L "lastPrice" t))
                            || isna (numeric L "quoteVolume" t))) usdt
          = filter (complete L) usdt).
  { apply filter_ext_in. intros t Ht. rewrite (Hmask t Ht).
    apply negb_involutive. }
  rewrite Hkeep. reflexivity.
Qed.

End TickerTable.

Section TickerResult.

Context {World : Type} (L : Libs World).

(** The table of the complete entries has the four headers, columns as
    long as its index, and no missing value. *)
Lemma ticker_table_shape (usdt : list pyval) :
  (forall t, In t usdt ->
     exists d s, t = PDict d /\ assoc "symbol" d = Some (PStr s)
                 /\ endswith s "USDT" = true) ->
  column_names (ticker_table_of L usdt) = ticker_headers
  /\ rectangular (ticker_table_of L usdt)
  /\ no_missing_value (ticker_table_of L usdt).
Proof.
  intros Hall. split; [ reflexivity | ].
  assert (Hlen : length (df_index (ticker_table_of L usdt))
                 = length (filter (complete L) usdt)).
  { cbn [ticker_table_of df_index].
    rewrite (drop_where_length (map (fun t => negb (complete L t)) usdt)
               (range_index (length usdt)) usdt).
    - rewrite <- (map_id usdt) at 2. rewrite drop_where_map, map_id.
      f_equal. apply filter_ext. intros t. apply negb_involutive.
    - unfold range_index. now rewrite !length_map, length_seq.
    - now rewrite length_map. }
  split.
  - unfold rectangular. rewrite Hlen. cbn [ticker_table_of df_columns].
    repeat constructor; cbn [snd]; apply length_map.
  - unfold no_missing_value. cbn [ticker_table_of df_columns].
    repeat constructor; cbn [snd]; apply Forall_map, Forall_forall;
      intros t Ht; apply filter_In in Ht as [Ht Hc].
    + destruct (Hall t Ht) as (d & x & -> & Hx & _).
      unfold separated, ticker_symbol. now rewrite Hx.
    + unfold complete in Hc. apply andb_true_iff in Hc as [Hc _].
      apply andb_true_iff in Hc as [Hc _]. now apply negb_true_iff.
    + unfold complete in Hc. apply andb_true_iff in Hc as [Hc _].
      apply andb_true_iff in Hc as [_ Hc]. now apply negb_true_iff.
    + unfold complete in Hc. apply andb_true_iff in Hc as [_ Hc].
      now apply negb_true_iff.
Qed.

(** X14. For a list of ticker entries that all carry a string symbol,
    [get_24h_ticker] returns: the empty table when no entry is quoted in
    USDT; None when there are such entries and one of the fields
    priceChangePercent, lastPrice and quoteVolume is a key of none of
    them; otherwise the table of the complete ones among them, each under
    the position it had among the entries quoted in USDT. *)
Theorem get_24h_ticker_result (st : state World) r w (ts : list pyval) :
  ticker_request L (st_world st) = (Ret r, w) ->
  raise_for_status r = Ret tt ->
  json r = Ret (PList ts) ->
  (forall t, In t ts -> ticker_symbol t <> None) ->
  fst (get_24h_ticker L st) = Ret (ticker_result L ts).
Proof.
  unfold ticker_request. intros Hq Hs Hj Hwf.
  assert (Hu := usdt_tickers_wellformed ts Hwf).
  destruct (usdt_tickers_filter ts _ Hu) as [_ Hall].
  unfold get_24h_ticker, ticker_body, ticker_result. run.
  rewrite Hq, Hs, Hj. cbn [iterate]. rewrite Hu.
  destruct (filter quoted_in_usdt ts) as [ | u us]; [ reflexivity | ].
  destruct (ticker_pipeline_result L (u :: us) ltac:(discriminate) Hall)
    as (e & Hp).
  cbv beta iota zeta delta [obind] in Hp.
  destruct (fields_present (u :: us)).
  - cases; try discriminate Hp. cbn [fst]. congruence.
  - cases; try discriminate Hp; try reflexivity;
      match goal with
      | H : is_Exception _ = false |- _ =>
          rewrite is_Exception_all in H; discriminate H
      end.
Qed.

(** X15. One entry that is no dictionary, has no symbol or has a symbol
    that is no string makes [get_24h_ticker] return None, wherever it is
    in the list and whatever the other entries are. *)
Theorem get_24h_ticker_malformed (st : state World) r w (ts : list pyval)
  (t : pyval) :
  ticker_request L (st_world st) = (Ret r, w) ->
  raise_for_status r = Ret tt ->
  json r = Ret (PList ts) ->
  In t ts -> ticker_symbol t = None ->
  fst (get_24h_ticker L st) = Ret None.
Proof.
  unfold ticker_request. intros Hq Hs Hj Hin Ht.
  destruct (usdt_tickers_malformed ts t Hin Ht) as (e & He).
  apply get_24h_ticker_raise with (e := e) (st' := MkState w (st_stdout st)).
  unfold ticker_body. run. rewrite Hq, Hs, Hj. cbn [iterate]. rewrite He.
  reflexivity.
Qed.

(** X16. A table [get_24h_ticker] returns is the empty table or has
    exactly the columns Sembol, Değişim (%), Son Fiyat and Hacim (USDT);
    its columns are as long as its index and it has no missing value. *)
Theorem get_24h_ticker_shape (st : state World) (df : DataFrame) :
  fst (get_24h_ticker L st) = Ret (Some df) ->
  (df = Pandas.empty \/ column_names df = ticker_headers)
  /\ rectangular df
  /\ no_missing_value df.
Proof.
  intros Hr. destruct (get_24h_ticker_some L st df Hr) as (st' & Hb).
  unfold ticker_body in Hb. revert Hb. run. intros Hb.
  step Hb Hreq. step Hb Ho. step Hb Hstatus. step Hb Hjson. step Hb Hiter.
  step Hb Husdt.
  destruct (usdt_tickers_filter _ _ Husdt) as [_ Hall].
  match type of Husdt with _ = Ret ?l => destruct l as [ | u us] end.
  - injection Hb as <- _.
    split; [ now left | split; constructor ].
  - destruct (ticker_pipeline_result L (u :: us) ltac:(discriminate) Hall)
      as (e & Hp).
    cbv beta iota zeta delta [obind] in Hp.
    assert (Hdf : df = ticker_table_of L (u :: us)).
    { destruct (fields_present (u :: us)).
      - repeat (let E := fresh in step Hb E). congruence.
      - repeat (let E := fresh in step Hb E). discriminate Hp. }
    subst df. destruct (ticker_table_shape (u :: us) Hall) as (H1 & H2 & H3).
    auto.
Qed.

End TickerResult.

(** ** Further worked cases *)

(** X1 at an exchange that rejects the take-profit order: the stop-loss
    order is asked for all the same. *)
Lemma create_market_order_calls_witness :
  calls (snd (create_market_order (traced_libs ticker_libs)
                (Some (traced_client picky)) (PStr "BTC/USDT") (PStr "buy")
                (PInt 1) (PInt 70000) (PInt 60000) (logging 0 [] []))) =
  [Call_create_market_order (PStr "BTC/USDT") (PStr "buy") (PInt 1);
   Call_create_order (PStr "BTC/USDT") (PStr "TAKE_PROFIT_MARKET") (PStr "sell")
     (PInt 1) PNone
     (PDict [("stopPrice", PInt 70000); ("reduceOnly", PBool true)]);
   Call_create_order (PStr "BTC/USDT") (PStr "STOP_MARKET") (PStr "sell")
     (PInt 1) PNone
     (PDict [("stopPrice", PInt 60000); ("reduceOnly", PBool true)])].
Proof.
  exact (create_market_order_calls ticker_libs picky (PStr "BTC/USDT")
           (PStr "buy") (PInt 1) (PInt 70000) (PInt 60000) 0 [] [] filled 1
           eq_refl).
Defined.

(** The same run prints the rejection and then the stop-loss order. *)
Example create_market_order_picky :
  create_market_order ticker_libs (Some picky) (PStr "BTC/USDT") (PStr "buy")
    (PInt 1) (PInt 70000) (PInt 60000) start =
  (Ret (filled, "Emir başarıyla oluşturuldu."),
   MkState 3 ["Market order created: {...}";
              "Take profit emri oluşturulurken hata: order rejected";
              "Stop loss order created: {...}"]).
Proof. reflexivity. Qed.

(** A price of zero is no price: no protective order is asked for. *)
Example create_market_order_zero_prices :
  calls (snd (create_market_order (traced_libs ticker_libs)
                (Some (traced_client picky)) (PStr "BTC/USDT") (PStr "sell")
                (PInt 1) (PInt 0) (PFloat (S754_zero false))
                (logging 0 [] []))) =
  [Call_create_market_order (PStr "BTC/USDT") (PStr "sell") (PInt 1)].
Proof. reflexivity. Qed.

(** X2 at an exchange out of reach. *)
Lemma create_market_order_failed_calls_witness :
  create_market_order (traced_libs ticker_libs) (Some (traced_client offline))
    (PStr "BTC/USDT") (PStr "buy") (PInt 1) (PInt 70000) (PInt 60000)
    (logging 0 [] []) =
  (Ret (PNone, "Emir oluşturulurken hata: connection refused"),
   logging 1 [Call_create_market_order (PStr "BTC/USDT") (PStr "buy") (PInt 1)]
     []).
Proof.
  exact (proj1 (create_market_order_failed_calls ticker_libs offline
                  (PStr "BTC/USDT") (PStr "buy") (PInt 1) (PInt 70000)
                  (PInt 60000) 0 [] []) unreachable 1 eq_refl).
Defined.

(** X4 at a short position: a negative contract count is returned. *)
Lemma get_position_truthy_witness :
  fst (get_position
         (Some (stub_client (Ret btc_only) (Ret filled) (Ret filled)
                  (Ret (PList [short2]))))
         (PStr "BTC/USDT") start) = Ret short2.
Proof.
  exact (proj2 (get_position_truthy
                  (stub_client (Ret btc_only) (Ret filled) (Ret filled)
                     (Ret (PList [short2])))
                  (PStr "BTC/USDT") start short2 [] 1 eq_refl)).
Defined.

(** X5 at a balance of 250 USDT. *)
Lemma get_futures_balance_sound_witness :
  exists balance total,
    fetch_balance (stub_client (Ret usdt_250) (Ret filled) (Ret filled)
                     (Ret (PList []))) 0 = (Ret balance, 1)
    /\ getitem balance "total" = Ret (PDict total)
    /\ PInt 250 = match assoc "USDT" total with Some v => v | None => PInt 0 end
    /\ @nil string = [].
Proof.
  apply (get_futures_balance_sound
           (stub_client (Ret usdt_250) (Ret filled) (Ret filled)
              (Ret (PList [])))
           start (PInt 250) (MkState 1 [])).
  - reflexivity.
  - discriminate.
Defined.

(** X6 at a balance without the 'total' map, and at one whose 'total' is
    None. *)
Lemma get_futures_balance_malformed_witness :
  get_futures_balance
    (Some (stub_client (Ret no_total) (Ret filled) (Ret filled)
             (Ret (PList []))))
    start =
  (Ret PNone, MkState 1 ["Bakiye alınırken hata: 'total'"])
  /\ get_futures_balance
       (Some (stub_client (Ret (PDict [("total", PNone)])) (Ret filled)
                (Ret filled) (Ret (PList []))))
       start =
     (Ret PNone,
      MkState 1 ["Bakiye alınırken hata: 'NoneType' object has no attribute 'get'"]).
Proof.
  split.
  - destruct (get_futures_balance_malformed
                (stub_client (Ret no_total) (Ret filled) (Ret filled)
                   (Ret (PList [])))
                start no_total 1 eq_refl) as (_ & _ & H & _).
    exact (H [("info", PDict [])] eq_refl eq_refl).
  - destruct (get_futures_balance_malformed
                (stub_client (Ret (PDict [("total", PNone)])) (Ret filled)
                   (Ret filled) (Ret (PList [])))
                start (PDict [("total", PNone)]) 1 eq_refl) as (_ & _ & _ & H).
    apply (H [("total", PNone)] PNone eq_refl eq_refl).
    intros m. discriminate.
Defined.

(** X9 at BTC/USDT and BTCUSDT. *)
Lemma get_historical_data_slash_witness :
  get_historical_data
    (stub_libs (Ret flaky) (ok_response one_kline) (Ret (candles (PStr "110"))))
    None (PStr "BTC/USDT") (PStr "1h") (PInt 100) start =
  get_historical_data
    (stub_libs (Ret flaky) (ok_response one_kline) (Ret (candles (PStr "110"))))
    None (PStr "BTCUSDT") (PStr "1h") (PInt 100) start.
Proof.
  exact (get_historical_data_slash
           (stub_libs (Ret flaky) (ok_response one_kline)
              (Ret (candles (PStr "110"))))
           None None "BTC/USDT" "BTCUSDT" (PStr "1h") (PInt 100) start eq_refl).
Defined.

(** X13 at one candle. *)
Lemma get_historical_data_table_witness :
  exists s r w data,
    PStr "BTC/USDT" = PStr s
    /\ klines_request candle_libs s (PStr "1h") (PInt 100) 0 = (Ret r, w)
    /\ raise_for_status r = Ret tt
    /\ json r = Ret data
    /\ ((truthy data = false /\ one_candle = Pandas.empty)
        \/ (truthy data = true
            /\ exists raw ts,
                 pd_DataFrame candle_libs data kline_columns = Ret raw
                 /\ get_column "timestamp" raw = Ret ts
                 /\ pd_to_datetime candle_libs ts = Ret (df_index one_candle)
                 /\ column_names one_candle = price_columns
                 /\ forall n, In n price_columns ->
                      exists c0, column n (df_columns raw) = Some c0
                                 /\ apply (float_of candle_libs) c0
                                    = Ret (values n one_candle))).
Proof.
  exact (get_historical_data_table candle_libs None (PStr "BTC/USDT")
           (PStr "1h") (PInt 100) start one_candle eq_refl).
Defined.

Lemma ticker_fixture_symbols (t : pyval) :
  In t ticker_fixture -> ticker_symbol t <> None.
Proof. intros [<- | [<- | [<- | []]]]; discriminate. Qed.

Lemma unpriced_symbols (t : pyval) : In t unpriced -> ticker_symbol t <> None.
Proof. intros [<- | [<- | []]]; discriminate. Qed.

(** X14 at the fixture, and at two entries without a last price. *)
Lemma get_24h_ticker_result_witness :
  fst (get_24h_ticker ticker_libs start) = Ret (Some ticker_table)
  /\ fst (get_24h_ticker
            (stub_libs (Ret flaky) (ok_response (PList unpriced)) no_table)
            start) = Ret None.
Proof.
  split.
  - exact (get_24h_ticker_result ticker_libs start
             (MkResponse (Ret tt) (Ret (PList ticker_fixture))) 1 ticker_fixture
             eq_refl eq_refl eq_refl ticker_fixture_symbols).
  - exact (get_24h_ticker_result
             (stub_libs (Ret flaky) (ok_response (PList unpriced)) no_table)
             start (MkResponse (Ret tt) (Ret (PList unpriced))) 1 unpriced
             eq_refl eq_refl eq_refl unpriced_symbols).
Defined.

(** X15 at a list whose last entry has no symbol. *)
Lemma get_24h_ticker_malformed_witness :
  fst (get_24h_ticker
         (stub_libs (Ret flaky)
            (ok_response (PList [btcusdt; ethbtc; PDict [("lastPrice", PStr "1")]]))
            no_table)
         start) = Ret None.
Proof.
  apply (get_24h_ticker_malformed
           (stub_libs (Ret flaky)
              (ok_response (PList [btcusdt; ethbtc; PDict [("lastPrice", PStr "1")]]))
              no_table)
           start
           (MkResponse (Ret tt)
              (Ret (PList [btcusdt; ethbtc; PDict [("lastPrice", PStr "1")]])))
           1 [btcusdt; ethbtc; PDict [("lastPrice", PStr "1")]]
           (PDict [("lastPrice", PStr "1")])); try reflexivity.
  right. right. left. reflexivity.
Defined.

(** X16 at the fixture. *)
Lemma get_24h_ticker_shape_witness :
  (ticker_table = Pandas.empty \/ column_names ticker_table = ticker_headers)
  /\ rectangular ticker_table
  /\ no_missing_value ticker_table.
Proof.
  exact (get_24h_ticker_shape ticker_libs start ticker_table eq_refl).
Defined.

(** X8 with a key the exchange refuses, X11 with an end point out of
    reach: one construction and one fetch, one request. *)
Example test_api_connection_refused_calls :
  calls (snd (test_api_connection
                (traced_libs (stub_libs (Ret refused) (Raise unreachable) no_table))
                (PStr "key") (PStr "s3cret") (logging 0 [] []))) =
  [Call_binance (client_config (PStr "key") (PStr "s3cret")); Call_fetch_balance].
Proof. reflexivity. Qed.

Example get_historical_data_unreachable_calls :
  calls (snd (get_historical_data
                (traced_libs (stub_libs (Ret flaky) (Raise unreachable) no_table))
                None (PStr "BTC/USDT") (PStr "1h") (PInt 100) (logging 0 [] []))) =
  [klines_call "BTC/USDT" (PStr "1h") (PInt 100)].
Proof. reflexivity. Qed.
